(** * pgas: payment gateway adapter system

    A shallow embedding of the Go sources

      - [pkg/providers/types.go]        (normalized schema, [Provider] interface)
      - [pkg/providers/mastercard]      (adapter with the flat error shape)
      - [pkg/providers/visa]            (adapter with the nested error shape)
      - [pkg/processor/processor.go]    (registry and pipeline)

    together with the part of the Go runtime the adapters rely on: dynamic
    values behind [interface{}], panics, [encoding/json] on those values,
    [strconv] and [time].  Definitions come first, theorems follow. *)

From Stdlib Require Import ZArith String Ascii List Bool Lia Floats.
From stdpp Require Import base option list gmap strings.

Set Warnings "-inexact-float,-register-all".
Local Open Scope string_scope.

(** ** Go runtime *)

Module Go.

(** Go's [float64] is IEEE 754 binary64, which is what Rocq's primitive
    [float] is.  [error] values are only ever built with [errors.New] and
    [fmt.Errorf] here and only observed through [Error()] and comparison
    with [nil]: an [error] is its message, a possibly-nil [error] is an
    [option]. *)
Definition float64 : Set := float.
Definition error := string.

(** A call either returns or panics. *)
Inductive result (A : Type) : Type :=
| Ok (a : A)
| Panic (msg : string).
Arguments Ok {A} a.
Arguments Panic {A} msg.

#[export] Instance result_ret : MRet result := fun _ a => Ok a.
#[export] Instance result_bind : MBind result := fun _ _ f m =>
  match m with
  | Ok a => f a
  | Panic msg => Panic msg
  end.

(** [time.Time], as an instant: seconds and nanoseconds since the Unix epoch. *)
Record Time := mkTime { unixSec : Z; nanos : Z }.

(** [time.Unix(sec, 0)] and the zero value [time.Time{}] (January 1, year 1). *)
Definition time_Unix (sec nsec : Z) : Time := mkTime sec nsec.
Definition zeroTime : Time := mkTime (-62135596800) 0.

(** Dynamic values, as they sit behind [interface{}].  The constructors are
    the dynamic types that occur in the repository and its tests (strings,
    [int], [float64], [time.Time], [map[string]interface{}]) and what
    [encoding/json] can meet next to them; [VChan] stands for the values
    [json.Marshal] has no encoding for (channels, functions).  A map is the
    list of its entries; a Go map has each key once, and indexing takes the
    first entry of a key. *)
Inductive any : Type :=
| VNil
| VBool (b : bool)
| VInt (n : Z)
| VFloat64 (f : float64)
| VString (s : string)
| VTime (t : Time)
| VSlice (l : list any)
| VMap (m : list (string * any))
| VChan.

(** [m[k]]: the entry, or the nil interface when there is none. *)
Fixpoint index (m : list (string * any)) (k : string) : any :=
  match m with
  | [] => VNil
  | (k', v) :: m' => if String.eqb k' k then v else index m' k
  end.

(** What [%T] prints. *)
Definition typeName (v : any) : string :=
  match v with
  | VNil => "<nil>"
  | VBool _ => "bool"
  | VInt _ => "int"
  | VFloat64 _ => "float64"
  | VString _ => "string"
  | VTime _ => "time.Time"
  | VSlice _ => "[]interface {}"
  | VMap _ => "map[string]interface {}"
  | VChan => "chan int"
  end.

(** The one-result type assertion [v.(string)], which panics when the dynamic
    type is not [string]. *)
Definition assertString (v : any) : result string :=
  match v with
  | VString s => Ok s
  | VNil => Panic "interface conversion: interface {} is nil, not string"
  | _ => Panic ("interface conversion: interface {} is " +:+ typeName v +:+ ", not string")
  end.

(** *** UTF-8

    [encoding/json] writes a string "coerced to valid UTF-8, replacing invalid
    bytes with the Unicode replacement rune".  [coerce] walks the bytes the
    way [utf8.DecodeRuneInString] does: a well-formed sequence of one to four
    bytes is kept, any other byte is replaced by U+FFFD (EF BF BD) and the
    walk resumes at the next byte. *)
Module utf8.

Definition byte_in (lo hi : N) (c : ascii) : bool :=
  (lo <=? N_of_ascii c)%N && (N_of_ascii c <=? hi)%N.

Definition cont (c : ascii) : bool := byte_in 128 191 c.

(** Two-, three- and four-byte sequences of the encoding (no overlong forms,
    no surrogates, nothing above U+10FFFF). *)
Definition seq2 (c1 c2 : ascii) : bool := byte_in 194 223 c1 && cont c2.

Definition seq3 (c1 c2 c3 : ascii) : bool :=
  ((byte_in 224 224 c1 && byte_in 160 191 c2)
   || (byte_in 225 236 c1 && cont c2)
   || (byte_in 237 237 c1 && byte_in 128 159 c2)
   || (byte_in 238 239 c1 && cont c2))
  && cont c3.

Definition seq4 (c1 c2 c3 c4 : ascii) : bool :=
  ((byte_in 240 240 c1 && byte_in 144 191 c2)
   || (byte_in 241 243 c1 && cont c2)
   || (byte_in 244 244 c1 && byte_in 128 143 c2))
  && cont c3 && cont c4.

Definition RuneError : string :=
  String (ascii_of_N 239) (String (ascii_of_N 191) (String (ascii_of_N 189) "")).

Fixpoint coerce (s : string) : string :=
  match s with
  | EmptyString => EmptyString
  | String c1 r1 =>
    if byte_in 0 127 c1 then String c1 (coerce r1) else
    match r1 with
    | String c2 r2 =>
      if seq2 c1 c2 then String c1 (String c2 (coerce r2)) else
      match r2 with
      | String c3 r3 =>
        if seq3 c1 c2 c3 then String c1 (String c2 (String c3 (coerce r3))) else
        match r3 with
        | String c4 r4 =>
          if seq4 c1 c2 c3 c4
          then String c1 (String c2 (String c3 (String c4 (coerce r4))))
          else RuneError +:+ coerce r1
        | EmptyString => RuneError +:+ coerce r1
        end
      | EmptyString => RuneError +:+ coerce r1
      end
    | EmptyString => RuneError +:+ coerce r1
    end
  end.

(** [utf8.ValidString]. *)
Fixpoint ValidString (s : string) : bool :=
  match s with
  | EmptyString => true
  | String c1 r1 =>
    if byte_in 0 127 c1 then ValidString r1 else
    match r1 with
    | String c2 r2 =>
      if seq2 c1 c2 then ValidString r2 else
      match r2 with
      | String c3 r3 =>
        if seq3 c1 c2 c3 then ValidString r3 else
        match r3 with
        | String c4 r4 => if seq4 c1 c2 c3 c4 then ValidString r4 else false
        | EmptyString => false
        end
      | EmptyString => false
      end
    | EmptyString => false
    end
  end.

End utf8.

(** *** Standard library, taken as an interface

    Three functions of Go's standard library are used through their
    documented behaviour only:
    - [FormatFloat f] is [strconv.FormatFloat(f, 'f', -1, 64)];
    - [ParseFloat s] is [strconv.ParseFloat(s, 64)]: the value and the error;
    - [Time_MarshalJSON t] is what [Time.MarshalJSON] writes between the
      quotes (RFC 3339), or its error. *)
Class Lib := {
  FormatFloat : float64 -> string;
  ParseFloat : string -> float64 * option error;
  Time_MarshalJSON : Time -> string + error
}.

(** [strconv.ParseInt(s, 10, 64)], used by [encoding/json] to read a number
    into an [int64]: an optional sign and decimal digits, within range. *)
Module strconv.

Definition digit (c : ascii) : option Z :=
  if utf8.byte_in 48 57 c then Some (Z.of_N (N_of_ascii c) - 48)%Z else None.

Fixpoint digits (acc : Z) (s : string) : option Z :=
  match s with
  | EmptyString => Some acc
  | String c r =>
    match digit c with
    | Some d => digits (10 * acc + d)%Z r
    | None => None
    end
  end.

Definition unsigned (s : string) : option Z :=
  match s with
  | EmptyString => None
  | _ => digits 0 s
  end.

Definition minInt64 : Z := (- 2 ^ 63)%Z.
Definition maxInt64 : Z := (2 ^ 63 - 1)%Z.

Definition ParseInt (s : string) : option Z :=
  let signed :=
    match s with
    | String "-" r => Z.opp <$> unsigned r
    | String "+" r => unsigned r
    | _ => unsigned s
    end in
  n ← signed;
  if ((minInt64 <=? n) && (n <=? maxInt64))%Z then Some n else None.

End strconv.

(** *** encoding/json

    [json.Marshal] followed by [json.Unmarshal] into a struct, on trees: the
    text between the two is not modelled, the tree is what the text denotes.
    A number remembers whether it was written from an [int] or a [float64]. *)
Module json.

Inductive value : Type :=
| JNull
| JBool (b : bool)
| JInt (n : Z)
| JFloat (f : float64)
| JString (s : string)
| JArray (l : list value)
| JObject (m : list (string * value)).

(** Map entries are written in the order of their keys ([strings.Compare]). *)
Fixpoint insertEntry {A} (e : string * A) (l : list (string * A)) : list (string * A) :=
  match l with
  | [] => [e]
  | e' :: l' => if String.ltb e.1 e'.1 then e :: l else e' :: insertEntry e l'
  end.

Fixpoint sortEntries {A} (l : list (string * A)) : list (string * A) :=
  match l with
  | [] => []
  | e :: l' => insertEntry e (sortEntries l')
  end.

(** The entries in order, up to the first one that failed to encode. *)
Fixpoint collect {A} (l : list (string * (A + error))) : list (string * A) + error :=
  match l with
  | [] => inl []
  | (k, inr e) :: _ => inr e
  | (k, inl a) :: l' =>
    match collect l' with
    | inl r => inl ((k, a) :: r)
    | inr e => inr e
    end
  end.

Section Marshal.
Context `{Lib}.

Fixpoint Marshal (v : any) : value + error :=
  match v with
  | VNil => inl JNull
  | VBool b => inl (JBool b)
  | VInt n => inl (JInt n)
  | VFloat64 f =>
    if is_nan f then inr "json: unsupported value: NaN"
    else if is_infinity f then
      inr (if (f <? 0)%float then "json: unsupported value: -Inf"
           else "json: unsupported value: +Inf")
    else inl (JFloat f)
  | VString s => inl (JString (utf8.coerce s))
  | VTime t =>
    match Time_MarshalJSON t with
    | inl s => inl (JString s)
    | inr e => inr ("json: error calling MarshalJSON for type time.Time: " +:+ e)
    end
  | VSlice l =>
    let fix elements (l : list any) : list value + error :=
      match l with
      | [] => inl []
      | x :: l' =>
        match Marshal x with
        | inr e => inr e
        | inl j =>
          match elements l' with
          | inl js => inl (j :: js)
          | inr e => inr e
          end
        end
      end in
    match elements l with
    | inl js => inl (JArray js)
    | inr e => inr e
    end
  | VMap m =>
    let fix entries (m : list (string * any)) : list (string * (value + error)) :=
      match m with
      | [] => []
      | (k, x) :: m' => (k, Marshal x) :: entries m'
      end in
    match collect (sortEntries (entries m)) with
    | inl kvs => inl (JObject (prod_map utf8.coerce id <$> kvs))
    | inr e => inr e
    end
  | VChan => inr "json: unsupported type: chan int"
  end.

(** What [UnmarshalTypeError.Value] says about a JSON value. *)
Definition kind (j : value) : string :=
  match j with
  | JNull => "null"
  | JBool _ => "bool"
  | JInt _ | JFloat _ => "number"
  | JString _ => "string"
  | JArray _ => "array"
  | JObject _ => "object"
  end.

Definition typeError (j : value) (goType : string) : error :=
  "json: cannot unmarshal " +:+ kind j +:+ " into Go value of type " +:+ goType.

(** The decoder remembers the first type error and goes on ([saveError]). *)
Definition saveError (saved new : option error) : option error :=
  match saved with
  | Some e => Some e
  | None => new
  end.

(** Decoding into a [string]: [null] leaves the target as it is. *)
Definition intoString (j : value) (cur : string) : string * option error :=
  match j with
  | JString s => (s, None)
  | JNull => (cur, None)
  | _ => (cur, Some (typeError j "string"))
  end.

(** A string field takes a string or [null], a struct an object or [null]. *)
Definition stringOrNull (j : value) : bool :=
  match j with
  | JString _ | JNull => true
  | _ => false
  end.

Definition objectOrNull (j : value) : bool :=
  match j with
  | JObject _ | JNull => true
  | _ => false
  end.

(** Decoding into an [int64]: the number's text has to read as an integer.
    A [float64] was written in the 'f' format unless it is below 1e-6 or at
    least 1e21 in magnitude, where the 'e' format is used. *)
Definition intoInt64 (j : value) (cur : Z) : Z * option error :=
  match j with
  | JNull => (cur, None)
  | JInt n =>
    if ((strconv.minInt64 <=? n) && (n <=? strconv.maxInt64))%Z then (n, None)
    else (cur, Some (typeError j "int64"))
  | JFloat f =>
    let a := abs f in
    if negb (a =? 0)%float && ((a <? 1e-6)%float || (1e21 <=? a)%float)
    then (cur, Some (typeError j "int64"))
    else match strconv.ParseInt (FormatFloat f) with
         | Some n => (n, None)
         | None => (cur, Some (typeError j "int64"))
         end
  | _ => (cur, Some (typeError j "int64"))
  end.

(** Keys are matched with field names exactly or, failing that, up to case
    folding ([foldName]).  Besides the ASCII letters, U+017F folds to [S] and
    U+212A to [K]; no other rune folds to an ASCII letter, and such runes are
    left as they are here. *)
Fixpoint foldName (s : string) : string :=
  match s with
  | EmptyString => EmptyString
  | String c r =>
    if utf8.byte_in 97 122 c then String (ascii_of_N (N_of_ascii c - 32)) (foldName r)
    else
      match N_of_ascii c, r with
      | 197%N, String c2 r2 =>
        if (N_of_ascii c2 =? 191)%N then String "S" (foldName r2)
        else String c (foldName r)
      | 226%N, String c2 (String c3 r3) =>
        if ((N_of_ascii c2 =? 132) && (N_of_ascii c3 =? 170))%N then String "K" (foldName r3)
        else String c (foldName r)
      | _, _ => String c (foldName r)
      end
  end.

(** A struct type, as the decoder sees it: the JSON name of each field with
    the way a value is stored into it. *)
Definition setter (S : Type) : Type := value -> S -> S * option error.

Definition findField {S} (fields : list (string * setter S)) (key : string)
  : option (setter S) :=
  match List.find (fun f => String.eqb f.1 key) fields with
  | Some f => Some f.2
  | None => snd <$> List.find (fun f => String.eqb (foldName f.1) (foldName key)) fields
  end.

Definition storeEntry {S} (fields : list (string * setter S))
    (st : S * option error) (kv : string * value) : S * option error :=
  match findField fields kv.1 with
  | None => st
  | Some set => let '(s', e) := set kv.2 st.1 in (s', saveError st.2 e)
  end.

Definition intoStruct {S} (goType : string) (fields : list (string * setter S))
  : setter S := fun j cur =>
  match j with
  | JNull => (cur, None)
  | JObject kvs => fold_left (storeEntry fields) kvs (cur, None)
  | _ => (cur, Some (typeError j goType))
  end.

End Marshal.

End json.

End Go.

Import Go.

(** ** pkg/providers/types.go: the normalized schema and the adapter contract *)

Module providers.

(** normalized request format *)
Record PaymentRequest := {
  Mode : string;
  Amount : float64;
  Currency : string;
  CardNumber : string;
  ExpiryMonth : string;
  ExpiryYear : string;
  CVV : string
}.

(** normalized success response format; [Date] is a [*time.Time] *)
Module Response.
Record PaymentResponse := {
  Success : bool;
  TransactionID : string;
  Status : string;
  Amount : float64;
  Currency : string;
  Date : option Time
}.
End Response.

(** normalized error response format *)
Module Error.
Record PaymentError := {
  Success : bool;
  ErrorCode : string;
  ErrorMessage : string
}.
End Error.

(** What a call of [ProcessPayment] reads from its surroundings: the draw of
    [rand.Float64()], a [float64] in [0.0,1.0), and the clock. *)
Record Env := {
  rand_Float64 : float64;
  time_Now : Time
}.

(** The [Provider] interface.  A method of an arbitrary implementation may
    panic; the [context.Context] argument of [ProcessPayment] is
    [context.Background()] at its only call site and no adapter looks at it,
    so it is left out. *)
Record Provider := {
  GetName : string;
  ValidateRequest : PaymentRequest -> result (option error);
  ProcessPayment : Env -> PaymentRequest -> result (any * any);
  ParseSuccessResponse : any -> result (option Response.PaymentResponse * option error);
  ParseErrorResponse : any -> result (option Error.PaymentError * option error)
}.

End providers.

(** ** pkg/providers/mastercard *)

Module mastercard.
Import providers.

(** error response format for mastercard ([types.go]) *)
Record PaymentError := {
  ErrorCode : string;
  Message : string
}.

Definition PaymentError_fields : list (string * json.setter PaymentError) :=
  [ ("error_code", fun j s =>
       let '(v, e) := json.intoString j (ErrorCode s) in
       ({| ErrorCode := v; Message := Message s |}, e));
    ("message", fun j s =>
       let '(v, e) := json.intoString j (Message s) in
       ({| ErrorCode := ErrorCode s; Message := v |}, e)) ].

Record MasterCardPaymentProvider := { Name : string }.

Definition GetNewMasterCardPaymentProvider : MasterCardPaymentProvider :=
  {| Name := "mastercard" |}.

Definition GetName (p : MasterCardPaymentProvider) : string := Name p.

Definition ValidateRequest (p : MasterCardPaymentProvider)
    (request : PaymentRequest) : option error :=
  if (Amount request <=? 0)%float then
    Some "amount must be greater than 0"
  else if (1000000 <? Amount request)%float then
    Some "amount exceeds maximum limit of 1,000,000"
  else if String.eqb (Currency request) "" then
    Some "currency is required"
  else if String.eqb (CardNumber request) "" then
    Some "card number is required"
  else if (String.length (CardNumber request) <? 13)%nat
          || (19 <? String.length (CardNumber request))%nat then
    Some "card number must be between 13 and 19 digits"
  else if String.eqb (ExpiryMonth request) "" || String.eqb (ExpiryYear request) "" then
    Some "expiry month and year are required"
  else if String.eqb (CVV request) "" then
    Some "CVV is required"
  else if (String.length (CVV request) <? 3)%nat
          || (4 <? String.length (CVV request))%nat then
    Some "CVV must be 3 or 4 digits"
  else None.

Section Adapter.
Context `{Lib}.

Definition ProcessPayment (p : MasterCardPaymentProvider) (env : Env)
    (request : PaymentRequest) : any * any :=
  if (rand_Float64 env <? 0.1)%float then
    let errorResponse := VMap
      [ ("error_code", VString "MC0001");
        ("message", VString "Insufficient funds") ] in
    (VNil, errorResponse)
  else
    let successResponse := VMap
      [ ("transaction_id", VString "TX1234567890");
        ("status", VString "APPROVED");
        ("amount", VString (FormatFloat (Amount request)));
        ("currency", VString (Currency request));
        ("timestamp", VTime (time_Now env)) ] in
    (successResponse, VNil).

Definition ParseSuccessResponse (p : MasterCardPaymentProvider) (response : any)
  : result (option Response.PaymentResponse * option error) :=
  match response with
  | VMap data =>
    match index data "amount" with
    | VString amountStr =>
      match ParseFloat amountStr with
      | (_, Some err) =>
        Ok (None, Some ("failed to convert 'amount' to float64: " +:+ err))
      | (amount, None) =>
        let dt := match index data "timestamp" with VTime t => t | _ => zeroTime end in
        transactionID ← assertString (index data "transaction_id");
        status ← assertString (index data "status");
        currency ← assertString (index data "currency");
        Ok (Some {| Response.Success := true;
                    Response.TransactionID := transactionID;
                    Response.Status := status;
                    Response.Amount := amount;
                    Response.Currency := currency;
                    Response.Date := Some dt |}, None)
      end
    | other =>
      Ok (None, Some ("expected 'amount' field to be a string, got " +:+ typeName other))
    end
  | _ =>
    Ok (None, Some ("expected map[string]interface{}, got " +:+ typeName response))
  end.

Definition ParseErrorResponse (p : MasterCardPaymentProvider) (response : any)
  : option Error.PaymentError * option error :=
  match json.Marshal response with
  | inr _ => (None, Some "error marshalling error response")
  | inl responseJSON =>
    match json.intoStruct "mastercard.PaymentError" PaymentError_fields responseJSON
            {| ErrorCode := ""; Message := "" |} with
    | (_, Some _) => (None, Some "invalid response error type")
    | (providerError, None) =>
      (Some {| Error.Success := false;
               Error.ErrorCode := ErrorCode providerError;
               Error.ErrorMessage := Message providerError |}, None)
    end
  end.

(** [*MasterCardPaymentProvider] as a [providers.Provider]. *)
Definition provider (p : MasterCardPaymentProvider) : Provider :=
  {| providers.GetName := GetName p;
     providers.ValidateRequest := fun request => Ok (ValidateRequest p request);
     providers.ProcessPayment := fun env request => Ok (ProcessPayment p env request);
     providers.ParseSuccessResponse := ParseSuccessResponse p;
     providers.ParseErrorResponse := fun response => Ok (ParseErrorResponse p response) |}.

End Adapter.

End mastercard.

(** ** pkg/providers/visa *)

Module visa.
Import providers.

(** success response format for visa: the anonymous struct of [Value] and
    the response itself *)
Record PaymentResponse_Value := {
  Amount : string;
  CurrencyCode : string
}.

Record PaymentResponse := {
  PaymentID : string;
  State : string;
  Value : PaymentResponse_Value;
  ProcessedAt : Z
}.

(** error response format for visa *)
Record PaymentError_Details := { Code : string }.

Record PaymentError := {
  ErrorType : string;
  Reason : string;
  Details : PaymentError_Details
}.

Record VisaPaymentProvider := { Name : string }.

Definition GetNewVisaPaymentProvider : VisaPaymentProvider := {| Name := "visa" |}.

Definition GetName (p : VisaPaymentProvider) : string := Name p.

Definition ValidateRequest (p : VisaPaymentProvider)
    (request : PaymentRequest) : option error :=
  if (providers.Amount request <=? 0)%float then
    Some "amount must be greater than 0"
  else if (1000000 <? providers.Amount request)%float then
    Some "amount exceeds maximum limit of 1,000,000"
  else if String.eqb (Currency request) "" then
    Some "currency is required"
  else if String.eqb (CardNumber request) "" then
    Some "card number is required"
  else if (String.length (CardNumber request) <? 13)%nat
          || (19 <? String.length (CardNumber request))%nat then
    Some "card number must be between 13 and 19 digits"
  else if String.eqb (ExpiryMonth request) "" || String.eqb (ExpiryYear request) "" then
    Some "expiry month and year are required"
  else if String.eqb (CVV request) "" then
    Some "CVV is required"
  else if (String.length (CVV request) <? 3)%nat
          || (4 <? String.length (CVV request))%nat then
    Some "CVV must be 3 or 4 digits"
  else None.

Section Adapter.
Context `{Lib}.

(** The struct types as [json.Unmarshal] sees them, by their [json] tags. *)
Definition Value_fields : list (string * json.setter PaymentResponse_Value) :=
  [ ("amount", fun j s =>
       let '(v, e) := json.intoString j (Amount s) in
       ({| Amount := v; CurrencyCode := CurrencyCode s |}, e));
    ("currency_code", fun j s =>
       let '(v, e) := json.intoString j (CurrencyCode s) in
       ({| Amount := Amount s; CurrencyCode := v |}, e)) ].

Definition PaymentResponse_fields : list (string * json.setter PaymentResponse) :=
  [ ("payment_id", fun j s =>
       let '(v, e) := json.intoString j (PaymentID s) in
       ({| PaymentID := v; State := State s; Value := Value s;
           ProcessedAt := ProcessedAt s |}, e));
    ("state", fun j s =>
       let '(v, e) := json.intoString j (State s) in
       ({| PaymentID := PaymentID s; State := v; Value := Value s;
           ProcessedAt := ProcessedAt s |}, e));
    ("value", fun j s =>
       let '(v, e) := json.intoStruct "struct" Value_fields j (Value s) in
       ({| PaymentID := PaymentID s; State := State s; Value := v;
           ProcessedAt := ProcessedAt s |}, e));
    ("processed_at", fun j s =>
       let '(v, e) := json.intoInt64 j (ProcessedAt s) in
       ({| PaymentID := PaymentID s; State := State s; Value := Value s;
           ProcessedAt := v |}, e)) ].

Definition Details_fields : list (string * json.setter PaymentError_Details) :=
  [ ("code", fun j s =>
       let '(v, e) := json.intoString j (Code s) in ({| Code := v |}, e)) ].

Definition PaymentError_fields : list (string * json.setter PaymentError) :=
  [ ("error_type", fun j s =>
       let '(v, e) := json.intoString j (ErrorType s) in
       ({| ErrorType := v; Reason := Reason s; Details := Details s |}, e));
    ("reason", fun j s =>
       let '(v, e) := json.intoString j (Reason s) in
       ({| ErrorType := ErrorType s; Reason := v; Details := Details s |}, e));
    ("details", fun j s =>
       let '(v, e) := json.intoStruct "struct" Details_fields j (Details s) in
       ({| ErrorType := ErrorType s; Reason := Reason s; Details := v |}, e)) ].

Definition ProcessPayment (p : VisaPaymentProvider) (env : Env)
    (request : PaymentRequest) : any * any :=
  if (rand_Float64 env <? 0.1)%float then
    let errorResponse := VMap
      [ ("error_type", VString "PAYMENT_FAILED");
        ("reason", VString "Card declined");
        ("details", VMap [ ("code", VString "EE000011") ]) ] in
    (VNil, errorResponse)
  else
    let successResponse := VMap
      [ ("payment_id", VString "PPAAYY--778899--XXYYZZ");
        ("state", VString "SUCCESS");
        ("value", VMap
           [ ("amount", VString (FormatFloat (providers.Amount request)));
             ("currency_code", VString (Currency request)) ]);
        ("processed_at", VInt 1677587921) ] in
    (successResponse, VNil).

Definition ParseSuccessResponse (p : VisaPaymentProvider) (response : any)
  : option Response.PaymentResponse * option error :=
  match json.Marshal response with
  | inr _ => (None, Some "error marshalling response")
  | inl responseJSON =>
    match json.intoStruct "visa.PaymentResponse" PaymentResponse_fields responseJSON
            {| PaymentID := ""; State := "";
               Value := {| Amount := ""; CurrencyCode := "" |};
               ProcessedAt := 0 |} with
    | (_, Some _) => (None, Some "invalid response type")
    | (providerResponse, None) =>
      let parsedAmount := fst (ParseFloat (Amount (Value providerResponse))) in
      let parsedTime := time_Unix (ProcessedAt providerResponse) 0 in
      (Some {| Response.Success := true;
               Response.TransactionID := PaymentID providerResponse;
               Response.Status := State providerResponse;
               Response.Amount := parsedAmount;
               Response.Currency := CurrencyCode (Value providerResponse);
               Response.Date := Some parsedTime |}, None)
    end
  end.

Definition ParseErrorResponse (p : VisaPaymentProvider) (response : any)
  : option Error.PaymentError * option error :=
  match json.Marshal response with
  | inr _ => (None, Some "error marshalling error response")
  | inl responseJSON =>
    match json.intoStruct "visa.PaymentError" PaymentError_fields responseJSON
            {| ErrorType := ""; Reason := ""; Details := {| Code := "" |} |} with
    | (_, Some _) => (None, Some "invalid response error type")
    | (providerError, None) =>
      (Some {| Error.Success := false;
               Error.ErrorCode := Code (Details providerError);
               Error.ErrorMessage :=
                 "ErrorType:" +:+ ErrorType providerError
                 +:+ " :: ErrorReason: " +:+ Reason providerError |}, None)
    end
  end.

(** [*VisaPaymentProvider] as a [providers.Provider]. *)
Definition provider (p : VisaPaymentProvider) : Provider :=
  {| providers.GetName := GetName p;
     providers.ValidateRequest := fun request => Ok (ValidateRequest p request);
     providers.ProcessPayment := fun env request => Ok (ProcessPayment p env request);
     providers.ParseSuccessResponse := fun response => Ok (ParseSuccessResponse p response);
     providers.ParseErrorResponse := fun response => Ok (ParseErrorResponse p response) |}.

End Adapter.

End visa.

(** ** pkg/processor/processor.go *)

Module processor.
Import providers.

Record PaymentProcessor := {
  providers : gmap string Provider
}.

Definition registerProviders (p : PaymentProcessor) (providers : list Provider)
  : PaymentProcessor :=
  foldl (fun p provider =>
           {| processor.providers := <[GetName provider := provider]> (processor.providers p) |})
        p providers.

Definition NewPaymentProcessor (paymentProviders : list Provider) : PaymentProcessor :=
  let newProvider := {| providers := ∅ |} in
  registerProviders newProvider paymentProviders.

Definition getProvider (p : PaymentProcessor) (requiredProvider : string)
  : option Provider * option error :=
  match providers p !! requiredProvider with
  | None => (None, Some ("invalid provider name provided: '" +:+ requiredProvider +:+ "'"))
  | Some pr => (Some pr, None)
  end.

Definition ProcessPayment (p : PaymentProcessor) (env : Env)
    (paymentReqest : PaymentRequest)
  : result (option Response.PaymentResponse * option Error.PaymentError) :=
  match getProvider p (Mode paymentReqest) with
  | (_, Some err) =>
    Ok (None, Some {| Error.Success := false;
                      Error.ErrorCode := "INVALID_PROVIDER";
                      Error.ErrorMessage := err |})
  | (None, None) => Panic "invalid memory address or nil pointer dereference"
  | (Some paymentProvider, None) =>
    validationError ← ValidateRequest paymentProvider paymentReqest;
    match validationError with
    | Some verr =>
      Ok (None, Some {| Error.Success := false;
                        Error.ErrorCode := "INVALID_REQUEST";
                        Error.ErrorMessage := verr |})
    | None =>
      '(processResponse, processError) ← providers.ProcessPayment paymentProvider env paymentReqest;
      match processError with
      | VNil =>
        '(successResponse, successParseError) ←
           ParseSuccessResponse paymentProvider processResponse;
        match successParseError with
        | Some perr =>
          Ok (None, Some {| Error.Success := false;
                            Error.ErrorCode := "PARSING_ERROR";
                            Error.ErrorMessage := perr |})
        | None => Ok (successResponse, None)
        end
      | _ =>
        '(parseErrorRes, parseErroErr) ←
           ParseErrorResponse paymentProvider processError;
        match parseErroErr with
        | Some perr =>
          Ok (None, Some {| Error.Success := false;
                            Error.ErrorCode := "PROCESSING_ERROR";
                            Error.ErrorMessage := perr |})
        | None => Ok (None, parseErrorRes)
        end
      end
    end
  end.

End processor.

(** ** An executable instance of the library interface

    To run the adapters on concrete inputs the three library functions need
    bodies.  [decimal] implements them on the decimal fragment of [strconv]
    (sign, digits, fraction, exponent, [NaN] and [Inf]; hexadecimal
    mantissas and digit separators are reported as invalid syntax) with
    correct rounding, and renders a time in UTC.  The general theorems below
    do not depend on it: they hold for every [Lib]. *)

Module decimal.

(** The nearest [float64] to [num / den], ties to even. *)
Definition nearest (neg : bool) (num den : positive) : float64 :=
  SF2Prim (SFdiv prec emax (S754_finite neg num 0) (S754_finite false den 0)).

(** The [float64] nearest to [m * 10 ^ e10]. *)
Definition ofDecimal (neg : bool) (m e10 : Z) : float64 :=
  match m with
  | Z.pos p =>
    if (0 <=? e10)%Z then nearest neg (p * Z.to_pos (10 ^ e10)) 1
    else nearest neg p (Z.to_pos (10 ^ (- e10)))
  | _ => if neg then (-0)%float else 0%float
  end.

(** A run of decimal digits: its value, its length and what follows it. *)
Fixpoint span (acc : Z) (n : Z) (s : string) : Z * Z * string :=
  match s with
  | String c r =>
    match strconv.digit c with
    | Some d => span (10 * acc + d) (n + 1) r
    | None => (acc, n, s)
    end
  | EmptyString => (acc, n, s)
  end.

Definition lower (c : ascii) : ascii :=
  if utf8.byte_in 65 90 c then ascii_of_N (N_of_ascii c + 32) else c.

Fixpoint lowerString (s : string) : string :=
  match s with
  | EmptyString => EmptyString
  | String c r => String (lower c) (lowerString r)
  end.

Definition quote : string := String "034" "".

Definition syntaxError (s : string) : error :=
  "strconv.ParseFloat: parsing " +:+ quote +:+ s +:+ quote +:+ ": invalid syntax".

Definition rangeError (s : string) : error :=
  "strconv.ParseFloat: parsing " +:+ quote +:+ s +:+ quote +:+ ": value out of range".

(** The number after the sign: digits, an optional fraction, an optional
    exponent; at least one digit in the mantissa and one in the exponent. *)
Definition number (neg : bool) (s : string) : option float64 :=
  let '(i, ni, r1) := span 0 0 s in
  let '(m, nf, r2) :=
    match r1 with
    | String "." r => span i 0 r
    | _ => (i, 0%Z, r1)
    end in
  if (ni + nf =? 0)%Z then None else
  match r2 with
  | EmptyString => Some (ofDecimal neg m (- nf))
  | String c r =>
    if Ascii.eqb (lower c) "e" then
      let '(eneg, r3) :=
        match r with
        | String "-" r' => (true, r')
        | String "+" r' => (false, r')
        | _ => (false, r)
        end in
      match span 0 0 r3 with
      | (x, nx, EmptyString) =>
        if (nx =? 0)%Z then None
        else Some (ofDecimal neg m ((if eneg then - x else x) - nf))
      | _ => None
      end
    else None
  end.

Definition ParseFloat (s : string) : float64 * option error :=
  let l := lowerString s in
  if String.eqb l "nan" then (nan, None)
  else if String.eqb l "inf" || String.eqb l "+inf"
          || String.eqb l "infinity" || String.eqb l "+infinity" then (infinity, None)
  else if String.eqb l "-inf" || String.eqb l "-infinity" then (neg_infinity, None)
  else
    let '(neg, body) :=
      match s with
      | String "-" r => (true, r)
      | String "+" r => (false, r)
      | _ => (false, s)
      end in
    match number neg body with
    | None => (0%float, Some (syntaxError s))
    | Some f => if is_infinity f then (f, Some (rangeError s)) else (f, None)
    end.

(** The decimal digits of a positive number, most significant first. *)
Fixpoint uintDigits (u : Decimal.uint) : list Z :=
  match u with
  | Decimal.Nil => []
  | Decimal.D0 u => 0%Z :: uintDigits u
  | Decimal.D1 u => 1%Z :: uintDigits u
  | Decimal.D2 u => 2%Z :: uintDigits u
  | Decimal.D3 u => 3%Z :: uintDigits u
  | Decimal.D4 u => 4%Z :: uintDigits u
  | Decimal.D5 u => 5%Z :: uintDigits u
  | Decimal.D6 u => 6%Z :: uintDigits u
  | Decimal.D7 u => 7%Z :: uintDigits u
  | Decimal.D8 u => 8%Z :: uintDigits u
  | Decimal.D9 u => 9%Z :: uintDigits u
  end.

Definition digitsOf (n : Z) : list Z :=
  match n with
  | Z.pos p => uintDigits (Pos.to_uint p)
  | _ => [0%Z]
  end.

Definition valueOf (ds : list Z) : Z := fold_left (fun a d => (10 * a + d)%Z) ds 0%Z.

Definition digitChar (d : Z) : ascii := ascii_of_N (Z.to_N (d + 48)).

Fixpoint digitString (ds : list Z) : string :=
  match ds with
  | [] => EmptyString
  | d :: r => String (digitChar d) (digitString r)
  end.

Fixpoint stripZeros (rev_ds : list Z) : list Z :=
  match rev_ds with
  | 0%Z :: r => stripZeros r
  | _ => rev_ds
  end.

(** [%f] of the digits [ds] with the decimal point after the first [dp] of
    them: the value is [0.ds * 10 ^ dp]. *)
Definition layout (ds : list Z) (dp : Z) : string :=
  let n := Z.of_nat (length ds) in
  if (dp <=? 0)%Z then
    "0." +:+ digitString (replicate (Z.to_nat (- dp)) 0%Z) +:+ digitString ds
  else if (n <=? dp)%Z then
    digitString ds +:+ digitString (replicate (Z.to_nat (dp - n)) 0%Z)
  else
    digitString (take (Z.to_nat dp) ds) +:+ "." +:+ digitString (drop (Z.to_nat dp) ds).

(** The shortest digit string that reads back as [x], searched from one
    digit up: at each length the nearest candidate first, then its two
    neighbours.  [D * 10 ^ q] is the exact value of [x]. *)
Fixpoint shortest (fuel : nat) (n : Z) (x : float64) (D q : Z) : Z * Z :=
  let len := Z.of_nat (length (digitsOf D)) in
  let cut := (len - n)%Z in
  match fuel with
  | O => (D, q)
  | S fuel' =>
    if (cut <=? 0)%Z then (D, q) else
    let unit := (10 ^ cut)%Z in
    let down := (D / unit)%Z in
    let near := ((2 * D + unit) / (2 * unit))%Z in
    let reads c := (ofDecimal false c (q + cut) =? x)%float in
    if reads near then (near, (q + cut)%Z)
    else if reads down then (down, (q + cut)%Z)
    else if reads (down + 1)%Z then ((down + 1)%Z, (q + cut)%Z)
    else shortest fuel' (n + 1) x D q
  end.

Definition FormatFloat (f : float64) : string :=
  match Prim2SF f with
  | S754_nan => "NaN"
  | S754_infinity false => "+Inf"
  | S754_infinity true => "-Inf"
  | S754_zero false => "0"
  | S754_zero true => "-0"
  | S754_finite neg m e =>
    let '(D, q) :=
      if (0 <=? e)%Z then (Z.pos m * 2 ^ e, 0)%Z
      else (Z.pos m * 5 ^ (- e), e)%Z in
    let '(d, q') := shortest 17 1 (abs f) D q in
    let ds := rev (stripZeros (rev (digitsOf d))) in
    let dp := (Z.of_nat (length (digitsOf d)) + q')%Z in
    (if neg then "-" else "") +:+ layout ds dp
  end.

(** RFC 3339 in UTC.  The civil date of a day number, counted from
    1970-01-01, in the proleptic Gregorian calendar. *)
Definition civil (days : Z) : Z * Z * Z :=
  let z := (days + 719468)%Z in
  let era := (z / 146097)%Z in
  let doe := (z - era * 146097)%Z in
  let yoe := ((doe - doe / 1460 + doe / 36524 - doe / 146096) / 365)%Z in
  let doy := (doe - (365 * yoe + yoe / 4 - yoe / 100))%Z in
  let mp := ((5 * doy + 2) / 153)%Z in
  let d := (doy - (153 * mp + 2) / 5 + 1)%Z in
  let m := (if (mp <? 10)%Z then mp + 3 else mp - 9)%Z in
  let y := (yoe + era * 400 + (if (m <=? 2)%Z then 1 else 0))%Z in
  (y, m, d).

Definition pad (width : nat) (n : Z) : string :=
  let ds := digitsOf n in
  digitString (replicate (width - length ds) 0%Z ++ ds).

Definition Time_MarshalJSON (t : Time) : string + error :=
  let sec := (unixSec t + nanos t / 1000000000)%Z in
  let ns := (nanos t mod 1000000000)%Z in
  let '(y, m, d) := civil (sec / 86400) in
  let s := (sec mod 86400)%Z in
  if ((y <? 0) || (10000 <=? y))%Z then
    inr "Time.MarshalJSON: year outside of range [0,9999]"
  else
    let frac :=
      if (ns =? 0)%Z then ""
      else "." +:+ digitString (rev (stripZeros (rev (replicate (9 - length (digitsOf ns)) 0%Z ++ digitsOf ns)))) in
    inl (pad 4 y +:+ "-" +:+ pad 2 m +:+ "-" +:+ pad 2 d +:+ "T"
         +:+ pad 2 (s / 3600) +:+ ":" +:+ pad 2 (s mod 3600 / 60) +:+ ":" +:+ pad 2 (s mod 60)
         +:+ frac +:+ "Z").

#[export] Instance lib : Lib := {|
  Go.FormatFloat := FormatFloat;
  Go.ParseFloat := ParseFloat;
  Go.Time_MarshalJSON := Time_MarshalJSON
|}.

End decimal.

(** ** What the claims speak about *)

Module spec.
Import providers.

(** The two reference adapters, under whatever name an instance carries. *)
Definition reference `{Lib} (prov : Provider) : Prop :=
  (exists p, prov = mastercard.provider p) \/ (exists p, prov = visa.provider p).

(** The validation rules in the order the specification lists them (amount
    not positive, amount ceiling, currency, card number presence, card number
    length, expiry, CVV presence, CVV length), each with its reason; the
    verdict the specification asks for is the reason of the first rule a
    request violates. *)
Definition check_order : list ((PaymentRequest -> bool) * error) :=
  [ (fun r => (Amount r <=? 0)%float, "amount must be greater than 0");
    (fun r => (1000000 <? Amount r)%float, "amount exceeds maximum limit of 1,000,000");
    (fun r => String.eqb (Currency r) "", "currency is required");
    (fun r => String.eqb (CardNumber r) "", "card number is required");
    (fun r => (String.length (CardNumber r) <? 13)%nat
              || (19 <? String.length (CardNumber r))%nat,
     "card number must be between 13 and 19 digits");
    (fun r => String.eqb (ExpiryMonth r) "" || String.eqb (ExpiryYear r) "",
     "expiry month and year are required");
    (fun r => String.eqb (CVV r) "", "CVV is required");
    (fun r => (String.length (CVV r) <? 3)%nat || (4 <? String.length (CVV r))%nat,
     "CVV must be 3 or 4 digits") ].

Definition first_violation (r : PaymentRequest) : option error :=
  snd <$> List.find (fun c => c.1 r) check_order.



(** The request of [main.go] and of the integration tests. *)
Definition sampleRequest (mode : string) (amount : float64) : PaymentRequest :=
  {| Mode := mode; Amount := amount; Currency := "USD";
     CardNumber := "4111111111111111"; ExpiryMonth := "12"; ExpiryYear := "2025";
     CVV := "123" |}.

End spec.

(** The processor of [main.go] (mastercard, then visa) over the library
    functions of [decimal], and a run in which the draw is 0.5. *)
Module run.
Import providers.

Definition mastercard : Provider :=
  @mastercard.provider decimal.lib mastercard.GetNewMasterCardPaymentProvider.

Definition visa : Provider :=
  @visa.provider decimal.lib visa.GetNewVisaPaymentProvider.

Definition main : processor.PaymentProcessor :=
  processor.NewPaymentProcessor [mastercard; visa].

Definition env : Env :=
  {| rand_Float64 := 0.5%float; time_Now := time_Unix 1700000000 0 |}.

End run.

(** Adapters that are not the reference ones, for the paths of the
    processor the reference adapters never take: [replay] answers every
    request with a mastercard success envelope that has an amount and nothing
    else and parses it as mastercard does; [silent] reports a failure and
    maps every error envelope to a nil error without complaint. *)
Module double.
Import providers.

Definition replay : Provider :=
  {| GetName := "replay";
     ValidateRequest := fun _ => Ok None;
     ProcessPayment := fun _ _ => Ok (VMap [ ("amount", VString "24.44") ], VNil);
     ParseSuccessResponse :=
       @mastercard.ParseSuccessResponse decimal.lib
         mastercard.GetNewMasterCardPaymentProvider;
     ParseErrorResponse := fun _ => Ok (None, None) |}.

Definition silent : Provider :=
  {| GetName := "silent";
     ValidateRequest := fun _ => Ok None;
     ProcessPayment := fun _ _ => Ok (VNil, VString "failed");
     ParseSuccessResponse := fun _ => Ok (None, None);
     ParseErrorResponse := fun _ => Ok (None, None) |}.

End double.

(** The success envelopes of visa, as its decoder meets them.  A key is
    read into the field whose name it equals or, failing that, equals up to
    case folding, the first such field in the order of the struct
    ([json.findField]).  An envelope [fits] when it has a JSON encoding in
    which every entry that is read into a field has a value the field takes
    ([null] included); a field is [absent] from an envelope none of whose
    keys is read into it. *)
Module shape.

Definition fieldOf (names : list string) (key : string) : option string :=
  match List.find (fun n => String.eqb n key) names with
  | Some n => Some n
  | None => List.find (fun n => String.eqb (json.foldName n) (json.foldName key)) names
  end.

Definition reads (names : list string) (name key : string) : bool :=
  match fieldOf names key with
  | Some n => String.eqb n name
  | None => false
  end.

Section Visa.
Context `{Lib}.










End Visa.

End shape.

(** * Theorems *)

Import providers.

(** ** The registry *)

Section Registry.

Lemma registerProviders_snoc (p : processor.PaymentProcessor) ps q :
  processor.registerProviders p (ps ++ [q]) =
  {| processor.providers :=
       <[GetName q := q]> (processor.providers (processor.registerProviders p ps)) |}.
Proof. unfold processor.registerProviders. by rewrite foldl_snoc. Qed.

(** A name no adapter of the list carries is not in the registry. *)
Lemma registry_unregistered ps (name : string) :
  (forall p, p ∈ ps -> GetName p <> name) ->
  processor.providers (processor.NewPaymentProcessor ps) !! name = None.
Proof.
  unfold processor.NewPaymentProcessor.
  induction ps as [|q ps IH] using rev_ind; intros Hne.
  - simpl. apply lookup_empty.
  - rewrite registerProviders_snoc. simpl.
    rewrite lookup_insert_ne.
    + apply IH. intros p Hp. apply Hne. apply elem_of_app. by left.
    + apply Hne. apply elem_of_app. right. by apply list_elem_of_singleton.
Qed.

(** What the registry holds under a name was registered under that name. *)
Lemma registry_registered ps (name : string) prov :
  processor.providers (processor.NewPaymentProcessor ps) !! name = Some prov ->
  prov ∈ ps /\ GetName prov = name.
Proof.
  unfold processor.NewPaymentProcessor.
  induction ps as [|q ps IH] using rev_ind.
  - simpl. by rewrite lookup_empty.
  - rewrite registerProviders_snoc. simpl.
    destruct (decide (GetName q = name)) as [Heq|Hne].
    + rewrite Heq, lookup_insert_eq. intros [= <-]. split; [|done].
      apply elem_of_app. right. by apply list_elem_of_singleton.
    + rewrite lookup_insert_ne by done. intros Hl.
      destruct (IH Hl) as [Hin Hn]. split; [|done].
      apply elem_of_app. by left.
Qed.

(** Registering more adapters leaves a name alone that none of them carries. *)
Lemma registry_app_other ps qs (name : string) :
  (forall q, q ∈ qs -> GetName q <> name) ->
  processor.providers (processor.NewPaymentProcessor (ps ++ qs)) !! name =
  processor.providers (processor.NewPaymentProcessor ps) !! name.
Proof.
  unfold processor.NewPaymentProcessor.
  induction qs as [|q qs IH] using rev_ind; intros Hne.
  - by rewrite app_nil_r.
  - rewrite app_assoc, registerProviders_snoc. simpl.
    rewrite lookup_insert_ne.
    + apply IH. intros p Hp. apply Hne. apply elem_of_app. by left.
    + apply Hne. apply elem_of_app. right. by apply list_elem_of_singleton.
Qed.

(** The adapter registered last under its name is what the name resolves to. *)
Lemma registry_last (before after : list Provider) (p : Provider) :
  (forall q, q ∈ after -> GetName q <> GetName p) ->
  processor.providers (processor.NewPaymentProcessor (before ++ p :: after)) !! GetName p
  = Some p.
Proof.
  intros Hafter.
  replace (before ++ p :: after)%list with ((before ++ [p]) ++ after)%list
    by (by rewrite <- app_assoc).
  rewrite registry_app_other by done.
  unfold processor.NewPaymentProcessor. rewrite registerProviders_snoc. simpl.
  by rewrite lookup_insert_eq.
Qed.

(** C9. Whatever was registered before it, an adapter that is not followed
    in the list by another one of the same name is the one its name resolves
    to: with two adapters of one name the later one wins, and resolving
    reports no error. *)
Theorem last_registered_wins (before after : list Provider) (p : Provider) :
  (forall q, q ∈ after -> GetName q <> GetName p) ->
  processor.getProvider (processor.NewPaymentProcessor (before ++ p :: after)) (GetName p)
  = (Some p, None).
Proof.
  intros Hafter. unfold processor.getProvider.
  by rewrite registry_last.
Qed.

End Registry.

(** ** Validation *)

Section Validation.

(** The two adapters validate alike. *)
Lemma ValidateRequest_same p q request :
  visa.ValidateRequest q request = mastercard.ValidateRequest p request.
Proof. reflexivity. Qed.

Lemma mastercard_first_violation p request :
  mastercard.ValidateRequest p request = spec.first_violation request.
Proof.
  unfold mastercard.ValidateRequest, spec.first_violation, spec.check_order.
  cbn [List.find fst snd].
  repeat match goal with
         | |- (if ?b then _ else _) = _ => destruct b; [reflexivity|]
         end.
  reflexivity.
Qed.

(** C10. For every request, each reference adapter's [ValidateRequest]
    returns the reason of the first rule, in the specification's order, that
    the request violates, and nothing when it violates none; a request that
    violates several rules therefore gets the single reason of the earliest
    one, never a combination. *)
Theorem validate_first_failing_reason
    (m : mastercard.MasterCardPaymentProvider) (v : visa.VisaPaymentProvider)
    (request : PaymentRequest) :
  mastercard.ValidateRequest m request = spec.first_violation request
  /\ visa.ValidateRequest v request = spec.first_violation request.
Proof.
  split.
  - apply mastercard_first_violation.
  - rewrite (ValidateRequest_same m). apply mastercard_first_violation.
Qed.

(** What makes a request invalid in the sense of claim C5. *)
Lemma invalid_amount_card_cvv p request :
  (Amount request <=? 0)%float = true
  \/ (String.length (CardNumber request) < 13)%nat
  \/ (19 < String.length (CardNumber request))%nat
  \/ (String.length (CVV request) < 3)%nat
  \/ (4 < String.length (CVV request))%nat ->
  exists reason, mastercard.ValidateRequest p request = Some reason.
Proof.
  intros Hbad. unfold mastercard.ValidateRequest.
  repeat match goal with
         | |- exists _, (if ?b then _ else _) = _ =>
           destruct b eqn:?; [eexists; reflexivity|]
         end.
  exfalso.
  repeat match goal with
         | H : (_ || _) = false |- _ => apply orb_false_iff in H; destruct H
         | H : (_ <? _)%nat = false |- _ => apply Nat.ltb_ge in H
         end.
  destruct Hbad as [Ha|Hbad]; [congruence|]. lia.
Qed.

End Validation.

(** ** UTF-8 *)

Section Utf8.

Lemma coerce_valid_bounded (n : nat) :
  forall s, (String.length s <= n)%nat -> utf8.ValidString s = true -> utf8.coerce s = s.
Proof.
  induction n as [|n IH]; intros s Hlen Hvalid.
  - destruct s; [reflexivity|simpl in Hlen; lia].
  - destruct s as [|c1 r1]; [reflexivity|].
    simpl in Hlen. cbn [utf8.ValidString utf8.coerce] in *.
    destruct (utf8.byte_in 0 127 c1).
    { f_equal. apply IH; [lia|done]. }
    destruct r1 as [|c2 r2]; [discriminate|]. simpl in Hlen.
    destruct (utf8.seq2 c1 c2).
    { do 2 f_equal. apply IH; [lia|done]. }
    destruct r2 as [|c3 r3]; [discriminate|]. simpl in Hlen.
    destruct (utf8.seq3 c1 c2 c3).
    { do 3 f_equal. apply IH; [lia|done]. }
    destruct r3 as [|c4 r4]; [discriminate|]. simpl in Hlen.
    destruct (utf8.seq4 c1 c2 c3 c4); [|discriminate].
    do 4 f_equal. apply IH; [lia|done].
Qed.

(** Coercion to valid UTF-8 leaves a valid string as it is. *)
Lemma coerce_valid s : utf8.ValidString s = true -> utf8.coerce s = s.
Proof. apply (coerce_valid_bounded (String.length s)). lia. Qed.







End Utf8.

(** ** encoding/json *)

Section Json.
Context `{Lib}.

Lemma insertEntry_In {A} (e e' : string * A) l :
  In e (json.insertEntry e' l) <-> e = e' \/ In e l.
Proof.
  induction l as [|x l IH]; cbn [json.insertEntry].
  - cbn. intuition.
  - destruct (String.ltb e'.1 x.1); cbn [In]; [intuition|].
    rewrite IH. intuition.
Qed.

Lemma sortEntries_In {A} (e : string * A) l :
  In e (json.sortEntries l) <-> In e l.
Proof.
  induction l as [|x l IH]; cbn [json.sortEntries]; [done|].
  rewrite insertEntry_In, IH. cbn. intuition.
Qed.

Lemma collect_In {A} (l : list (string * (A + error))) r k a :
  json.collect l = inl r -> In (k, inl a) l -> In (k, a) r.
Proof.
  revert r. induction l as [|[k' [a'|e]] l IH]; intros r; cbn [json.collect].
  - intros _ [].
  - destruct (json.collect l) as [r'|e]; [|discriminate].
    intros [= <-] [[= -> ->]|Hin]; [by left|right; by apply IH].
  - discriminate.
Qed.

Lemma collect_inl {A} (l : list (string * (A + error))) r k x :
  json.collect l = inl r -> In (k, x) l -> exists a, x = inl a.
Proof.
  revert r. induction l as [|[k' [a'|e]] l IH]; intros r; cbn [json.collect].
  - intros _ [].
  - destruct (json.collect l) as [r'|e]; [|discriminate].
    intros _ [[= _ <-]|Hin]; [by eexists|by eapply IH].
  - discriminate.
Qed.

(** A map is written as the object of its entries, keys in order. *)
Lemma Marshal_VMap data :
  json.Marshal (VMap data) =
  match json.collect (json.sortEntries (map (fun kx => (kx.1, json.Marshal kx.2)) data)) with
  | inl kvs => inl (json.JObject (prod_map utf8.coerce id <$> kvs))
  | inr e => inr e
  end.
Proof.
  cbn [json.Marshal].
  match goal with
  | |- context [json.sortEntries (?f data)] =>
    assert (Hf : forall l, f l = map (fun kx => (kx.1, json.Marshal kx.2)) l)
      by (intros l; induction l as [|[k x] l IH]; [done|by cbn; rewrite IH])
  end.
  by rewrite Hf.
Qed.

(** Every entry of a map that was written is in the object, under its
    coerced key. *)
Lemma Marshal_VMap_entry data j k x :
  json.Marshal (VMap data) = inl j -> In (k, x) data ->
  exists kvs jx,
    j = json.JObject kvs /\ json.Marshal x = inl jx /\ In (utf8.coerce k, jx) kvs.
Proof.
  rewrite Marshal_VMap.
  destruct (json.collect _) as [kvs|e] eqn:Hc; [|discriminate].
  intros [= <-] Hin.
  assert (Hin' : In (k, json.Marshal x)
                   (json.sortEntries (map (fun kx => (kx.1, json.Marshal kx.2)) data))).
  { apply sortEntries_In. apply in_map_iff. by exists (k, x). }
  destruct (collect_inl _ _ _ _ Hc Hin') as [jx Hjx].
  rewrite Hjx in Hin'. exists (prod_map utf8.coerce id <$> kvs), jx.
  split; [done|]. split; [done|].
  apply in_map_iff. exists (k, jx). split; [done|]. by eapply collect_In.
Qed.

(** The decoder keeps the first error to the end. *)
Lemma store_keeps_error {S} (fields : list (string * json.setter S)) kvs s e :
  (fold_left (json.storeEntry fields) kvs (s, Some e)).2 = Some e.
Proof.
  revert s. induction kvs as [|kv kvs IH]; intros s; cbn [fold_left]; [done|].
  unfold json.storeEntry at 2. cbn [fst snd].
  destruct (json.findField fields kv.1) as [set|]; [|apply IH].
  destruct (set kv.2 s) as [s' e']. cbn [json.saveError]. apply IH.
Qed.

(** An entry whose key names a field and whose value the field cannot take
    makes the decoding fail, whatever else the object holds. *)
Lemma intoStruct_mismatch {S} goType (fields : list (string * json.setter S))
    kvs cur k j set :
  In (k, j) kvs ->
  json.findField fields k = Some set ->
  (forall s, (set j s).2 <> None) ->
  (json.intoStruct goType fields (json.JObject kvs) cur).2 <> None.
Proof.
  intros Hin Hfield Hbad. cbn [json.intoStruct].
  enough (Hgen : forall cur saved,
             (fold_left (json.storeEntry fields) kvs (cur, saved)).2 <> None)
    by apply Hgen.
  clear cur.
  induction kvs as [|kv kvs IH]; intros cur saved; [destruct Hin|].
  cbn [fold_left]. destruct Hin as [->|Hin].
  - unfold json.storeEntry at 2. cbn [fst snd]. rewrite Hfield.
    specialize (Hbad cur). destruct (set j cur) as [s' [e'|]]; [|done].
    destruct saved as [e|]; cbn [json.saveError]; by rewrite store_keeps_error.
  - destruct (json.storeEntry fields (cur, saved) kv) as [s' saved']. by apply IH.
Qed.

Lemma intoString_mismatch j cur :
  json.stringOrNull j = false -> (json.intoString j cur).2 <> None.
Proof. by destruct j. Qed.

End Json.

(** ** The adapters on the envelopes of their own wire format *)

Section Envelopes.
Context `{Lib}.

(** The flat error shape of mastercard. *)
Lemma mastercard_parse_error_shape p code message :
  mastercard.ParseErrorResponse p
    (VMap [ ("error_code", VString code); ("message", VString message) ])
  = (Some {| Error.Success := false;
             Error.ErrorCode := utf8.coerce code;
             Error.ErrorMessage := utf8.coerce message |}, None).
Proof. reflexivity. Qed.

(** The nested error shape of visa. *)
Lemma visa_parse_error_shape p errorType reason code :
  visa.ParseErrorResponse p
    (VMap [ ("error_type", VString errorType);
            ("reason", VString reason);
            ("details", VMap [ ("code", VString code) ]) ])
  = (Some {| Error.Success := false;
             Error.ErrorCode := utf8.coerce code;
             Error.ErrorMessage :=
               "ErrorType:" +:+ utf8.coerce errorType
               +:+ " :: ErrorReason: " +:+ utf8.coerce reason |}, None).
Proof. reflexivity. Qed.

(** The success shape of visa; the error of [ParseFloat] is dropped. *)
Lemma visa_parse_success_shape p paymentID state amount currency processedAt :
  (strconv.minInt64 <= processedAt <= strconv.maxInt64)%Z ->
  visa.ParseSuccessResponse p
    (VMap [ ("payment_id", VString paymentID);
            ("state", VString state);
            ("value", VMap [ ("amount", VString amount);
                             ("currency_code", VString currency) ]);
            ("processed_at", VInt processedAt) ])
  = (Some {| Response.Success := true;
             Response.TransactionID := utf8.coerce paymentID;
             Response.Status := utf8.coerce state;
             Response.Amount := fst (ParseFloat (utf8.coerce amount));
             Response.Currency := utf8.coerce currency;
             Response.Date := Some (time_Unix processedAt 0) |}, None).
Proof.
  intros [Hlo Hhi].
  apply Z.leb_le in Hlo, Hhi.
  unfold visa.ParseSuccessResponse.
  change (json.Marshal _) with
    (@inl json.value error (json.JObject
       [ ("payment_id", json.JString (utf8.coerce paymentID));
         ("processed_at", json.JInt processedAt);
         ("state", json.JString (utf8.coerce state));
         ("value", json.JObject
            [ ("amount", json.JString (utf8.coerce amount));
              ("currency_code", json.JString (utf8.coerce currency)) ]) ])).
  cbv beta iota.
  unfold json.intoStruct at 1.
  cbn [fold_left].
  unfold json.storeEntry.
  cbn -[Z.leb strconv.minInt64 strconv.maxInt64 utf8.coerce].
  rewrite Hlo, Hhi. reflexivity.
Qed.




(** mastercard reads [transaction_id] with the one-result assertion: once
    the amount was read, an envelope without a string there makes it panic. *)
Lemma mastercard_panics_without_transaction_id p data s parsed :
  index data "amount" = VString s ->
  ParseFloat s = (parsed, None) ->
  (forall t, index data "transaction_id" <> VString t) ->
  exists msg, mastercard.ParseSuccessResponse p (VMap data) = Panic msg.
Proof.
  intros Hamount Hparse Hid. unfold mastercard.ParseSuccessResponse.
  rewrite Hamount, Hparse.
  destruct (index data "transaction_id") eqn:Hi; try by eexists.
  by destruct (Hid s0).
Qed.

(** C7, as amended. For error envelopes of the nested shape whose three
    strings are valid UTF-8, visa's [ParseErrorResponse] returns the error
    with [details.code] as its code and
    ["ErrorType:<type> :: ErrorReason: <reason>"] as its message. *)
Theorem visa_error_mapping p errorType reason code :
  utf8.ValidString errorType = true ->
  utf8.ValidString reason = true ->
  utf8.ValidString code = true ->
  visa.ParseErrorResponse p
    (VMap [ ("error_type", VString errorType);
            ("reason", VString reason);
            ("details", VMap [ ("code", VString code) ]) ])
  = (Some {| Error.Success := false;
             Error.ErrorCode := code;
             Error.ErrorMessage :=
               "ErrorType:" +:+ errorType +:+ " :: ErrorReason: " +:+ reason |}, None).
Proof.
  intros Ht Hr Hc. rewrite visa_parse_error_shape.
  by rewrite !coerce_valid.
Qed.

End Envelopes.

(** ** The pipeline on a reference adapter *)

Section Pipeline.
Context `{Lib}.

(** The success shape of mastercard, with all five entries present. *)
Lemma mastercard_parse_success_shape p transactionID status amount currency timestamp :
  mastercard.ParseSuccessResponse p
    (VMap [ ("transaction_id", VString transactionID);
            ("status", VString status);
            ("amount", VString amount);
            ("currency", VString currency);
            ("timestamp", VTime timestamp) ])
  = match ParseFloat amount with
    | (_, Some err) => Ok (None, Some ("failed to convert 'amount' to float64: " +:+ err))
    | (parsed, None) =>
      Ok (Some {| Response.Success := true;
                  Response.TransactionID := transactionID;
                  Response.Status := status;
                  Response.Amount := parsed;
                  Response.Currency := currency;
                  Response.Date := Some timestamp |}, None)
    end.
Proof.
  unfold mastercard.ParseSuccessResponse. cbn [index String.eqb Ascii.eqb Bool.eqb].
  destruct (ParseFloat amount) as [parsed [err|]]; reflexivity.
Qed.

(** [ProcessPayment] when the mode resolves to a mastercard adapter. *)
Lemma process_mastercard pr env request p :
  processor.getProvider pr (Mode request) = (Some (mastercard.provider p), None) ->
  processor.ProcessPayment pr env request =
  match mastercard.ValidateRequest p request with
  | Some reason =>
    Ok (None, Some {| Error.Success := false; Error.ErrorCode := "INVALID_REQUEST";
                      Error.ErrorMessage := reason |})
  | None =>
    if (rand_Float64 env <? 0.1)%float then
      Ok (None, Some {| Error.Success := false; Error.ErrorCode := "MC0001";
                        Error.ErrorMessage := "Insufficient funds" |})
    else
      match ParseFloat (FormatFloat (Amount request)) with
      | (_, Some err) =>
        Ok (None, Some {| Error.Success := false; Error.ErrorCode := "PARSING_ERROR";
                          Error.ErrorMessage :=
                            "failed to convert 'amount' to float64: " +:+ err |})
      | (parsed, None) =>
        Ok (Some {| Response.Success := true;
                    Response.TransactionID := "TX1234567890";
                    Response.Status := "APPROVED";
                    Response.Amount := parsed;
                    Response.Currency := Currency request;
                    Response.Date := Some (time_Now env) |}, None)
      end
  end.
Proof.
  intros Hget. unfold processor.ProcessPayment. rewrite Hget.
  cbn [mastercard.provider ValidateRequest providers.ProcessPayment
       ParseSuccessResponse ParseErrorResponse mbind result_bind].
  destruct (mastercard.ValidateRequest p request) as [reason|]; [reflexivity|].
  unfold mastercard.ProcessPayment.
  destruct (rand_Float64 env <? 0.1)%float.
  - cbv beta iota zeta. rewrite mastercard_parse_error_shape. reflexivity.
  - cbv beta iota zeta. rewrite mastercard_parse_success_shape.
    destruct (ParseFloat (FormatFloat (Amount request))) as [parsed [err|]]; reflexivity.
Qed.

(** [ProcessPayment] when the mode resolves to a visa adapter. *)
Lemma process_visa pr env request p :
  processor.getProvider pr (Mode request) = (Some (visa.provider p), None) ->
  processor.ProcessPayment pr env request =
  match visa.ValidateRequest p request with
  | Some reason =>
    Ok (None, Some {| Error.Success := false; Error.ErrorCode := "INVALID_REQUEST";
                      Error.ErrorMessage := reason |})
  | None =>
    if (rand_Float64 env <? 0.1)%float then
      Ok (None, Some {| Error.Success := false; Error.ErrorCode := "EE000011";
                        Error.ErrorMessage :=
                          "ErrorType:PAYMENT_FAILED :: ErrorReason: Card declined" |})
    else
      Ok (Some {| Response.Success := true;
                  Response.TransactionID := "PPAAYY--778899--XXYYZZ";
                  Response.Status := "SUCCESS";
                  Response.Amount :=
                    fst (ParseFloat (utf8.coerce (FormatFloat (Amount request))));
                  Response.Currency := utf8.coerce (Currency request);
                  Response.Date := Some (time_Unix 1677587921 0) |}, None)
  end.
Proof.
  intros Hget. unfold processor.ProcessPayment. rewrite Hget.
  cbn [visa.provider ValidateRequest providers.ProcessPayment
       ParseSuccessResponse ParseErrorResponse mbind result_bind].
  destruct (visa.ValidateRequest p request) as [reason|]; [reflexivity|].
  unfold visa.ProcessPayment.
  destruct (rand_Float64 env <? 0.1)%float.
  - cbv beta iota zeta. rewrite visa_parse_error_shape. reflexivity.
  - cbv beta iota zeta. rewrite visa_parse_success_shape by (split; discriminate).
    reflexivity.
Qed.

(** Resolving either fails, when no adapter carries the name, or yields an
    adapter of the list. *)
Lemma resolve_cases ps (name : string) :
  (processor.getProvider (processor.NewPaymentProcessor ps) name
   = (None, Some ("invalid provider name provided: '" +:+ name +:+ "'"))
   /\ forall p, p ∈ ps -> GetName p <> name)
  \/ (exists prov,
        processor.getProvider (processor.NewPaymentProcessor ps) name = (Some prov, None)
        /\ prov ∈ ps /\ GetName prov = name).
Proof.
  unfold processor.getProvider.
  destruct (processor.providers (processor.NewPaymentProcessor ps) !! name)
    as [prov|] eqn:Hl.
  - right. exists prov. split; [reflexivity|]. by apply registry_registered.
  - left. split; [reflexivity|]. intros p Hp Hn.
    destruct (list_elem_of_split _ _ Hp) as (before & after & ->).
    clear Hp. revert Hl. subst name.
    induction after as [|q after IH] using rev_ind; intros Hl.
    + rewrite registry_last in Hl; [discriminate|].
      intros q Hq. by apply elem_of_nil in Hq.
    + replace (before ++ p :: after ++ [q])%list
        with ((before ++ p :: after) ++ [q])%list in Hl
        by (by rewrite <- app_assoc).
      destruct (decide (GetName q = GetName p)) as [Heq|Hne].
      * rewrite <- Heq in Hl.
        replace ((before ++ p :: after) ++ [q])%list
          with ((before ++ p :: after) ++ q :: [])%list in Hl by done.
        rewrite registry_last in Hl; [discriminate|].
        intros q' Hq'. by apply elem_of_nil in Hq'.
      * apply IH. rewrite registry_app_other in Hl; [done|].
        intros q' Hq'. apply list_elem_of_singleton in Hq'. by subst q'.
Qed.

(** Whatever the adapters are, [ProcessPayment] never returns both a
    response and an error: every [return] of it has [nil] on one side. *)
Lemma never_both_results pr env request response err :
  processor.ProcessPayment pr env request = Ok (response, err) ->
  response = None \/ err = None.
Proof.
  unfold processor.ProcessPayment.
  destruct (processor.getProvider pr (Mode request)) as [[prov|] [gerr|]];
    try (intros [= <- <-]; by left); try discriminate.
  destruct (ValidateRequest prov request) as [[verr|]|]; cbn;
    try (intros [= <- <-]; by left); try discriminate.
  destruct (providers.ProcessPayment prov env request) as [[processResponse processError]|];
    cbn; [|discriminate].
  destruct processError;
    try (destruct (ParseErrorResponse prov _) as [[parsed [perr|]]|]; cbn;
         try discriminate; intros [= <- <-]; by left).
  destruct (ParseSuccessResponse prov processResponse) as [[parsed [perr|]]|]; cbn;
    try discriminate; intros [= <- <-]; [by left|by right].
Qed.

(** C1. For the processor over any list of reference adapters, every request
    and every draw: [ProcessPayment] returns (it does not panic), exactly one
    of the response and the error is non-nil, and a response is returned only
    when the mode resolved to an adapter, that adapter's validation passed,
    its invocation returned a success envelope with a nil error envelope, and
    its [ParseSuccessResponse] produced that response without error. *)
Theorem exactly_one_result ps env request :
  Forall spec.reference ps ->
  exists response err,
    processor.ProcessPayment (processor.NewPaymentProcessor ps) env request
    = Ok (response, err)
    /\ ((is_Some response /\ err = None) \/ (response = None /\ is_Some err))
    /\ (forall r, response = Some r ->
        exists prov envelope,
          processor.getProvider (processor.NewPaymentProcessor ps) (Mode request)
          = (Some prov, None)
          /\ ValidateRequest prov request = Ok None
          /\ providers.ProcessPayment prov env request = Ok (envelope, VNil)
          /\ ParseSuccessResponse prov envelope = Ok (Some r, None)).
Proof.
  intros Href.
  destruct (resolve_cases ps (Mode request)) as [[Hget _]|(prov & Hget & Hin & _)].
  - unfold processor.ProcessPayment. rewrite Hget.
    eexists _, _. split; [reflexivity|]. split; [right; eauto|]. discriminate.
  - rewrite Forall_forall in Href. destruct (Href prov Hin) as [[p ->]|[p ->]].
    + rewrite (process_mastercard _ _ _ p Hget).
      destruct (mastercard.ValidateRequest p request) as [reason|] eqn:Hval.
      { eexists _, _. split; [reflexivity|]. split; [right; eauto|]. discriminate. }
      destruct (rand_Float64 env <? 0.1)%float eqn:Hdraw.
      { eexists _, _. split; [reflexivity|]. split; [right; eauto|]. discriminate. }
      destruct (ParseFloat (FormatFloat (Amount request))) as [parsed [perr|]] eqn:Hparse.
      { eexists _, _. split; [reflexivity|]. split; [right; eauto|]. discriminate. }
      eexists _, _. split; [reflexivity|]. split; [left; eauto|].
      intros r [= <-]. eexists _, _. split; [exact Hget|].
      cbn [mastercard.provider ValidateRequest providers.ProcessPayment ParseSuccessResponse].
      rewrite Hval. split; [reflexivity|].
      unfold mastercard.ProcessPayment. rewrite Hdraw. cbv zeta.
      split; [reflexivity|].
      rewrite mastercard_parse_success_shape, Hparse. reflexivity.
    + rewrite (process_visa _ _ _ p Hget).
      destruct (visa.ValidateRequest p request) as [reason|] eqn:Hval.
      { eexists _, _. split; [reflexivity|]. split; [right; eauto|]. discriminate. }
      destruct (rand_Float64 env <? 0.1)%float eqn:Hdraw.
      { eexists _, _. split; [reflexivity|]. split; [right; eauto|]. discriminate. }
      eexists _, _. split; [reflexivity|]. split; [left; eauto|].
      intros r [= <-]. eexists _, _. split; [exact Hget|].
      cbn [visa.provider ValidateRequest providers.ProcessPayment ParseSuccessResponse].
      rewrite Hval. split; [reflexivity|].
      unfold visa.ProcessPayment. rewrite Hdraw. cbv zeta.
      split; [reflexivity|].
      rewrite visa_parse_success_shape by (split; discriminate). reflexivity.
Qed.

(** C4. A request whose mode is the name of no registered adapter gets
    the error [INVALID_PROVIDER], with the message of [getProvider], whatever
    the adapters are.  Over reference adapters an error with that code comes
    from nowhere else: whenever [ProcessPayment] returns it, no registered
    adapter carries the mode. *)
Theorem invalid_provider_at_resolve_only ps env request :
  ((forall p, p ∈ ps -> GetName p <> Mode request) ->
   processor.ProcessPayment (processor.NewPaymentProcessor ps) env request
   = Ok (None, Some {| Error.Success := false;
                       Error.ErrorCode := "INVALID_PROVIDER";
                       Error.ErrorMessage :=
                         "invalid provider name provided: '" +:+ Mode request +:+ "'" |}))
  /\ (Forall spec.reference ps ->
      forall response err,
        processor.ProcessPayment (processor.NewPaymentProcessor ps) env request
        = Ok (response, Some err) ->
        Error.ErrorCode err = "INVALID_PROVIDER" ->
        forall p, p ∈ ps -> GetName p <> Mode request).
Proof.
  destruct (resolve_cases ps (Mode request)) as [[Hget Hnone]|(prov & Hget & Hin & Hname)].
  - split; [|intros; by apply Hnone].
    intros _. unfold processor.ProcessPayment. by rewrite Hget.
  - split.
    { intros Hnone. by destruct (Hnone prov Hin). }
    intros Href response err. rewrite Forall_forall in Href.
    destruct (Href prov Hin) as [[p ->]|[p ->]].
    + rewrite (process_mastercard _ _ _ p Hget).
      destruct (mastercard.ValidateRequest p request); [by intros [= <- <-]|].
      destruct (rand_Float64 env <? 0.1)%float; [by intros [= <- <-]|].
      destruct (ParseFloat (FormatFloat (Amount request))) as [parsed [perr|]];
        [by intros [= <- <-]|discriminate].
    + rewrite (process_visa _ _ _ p Hget).
      destruct (visa.ValidateRequest p request); [by intros [= <- <-]|].
      destruct (rand_Float64 env <? 0.1)%float; [by intros [= <- <-]|discriminate].
Qed.

(** C5. When the mode resolves to a reference adapter and the amount is not
    positive, or the card number is shorter than 13 or longer than 19 bytes,
    or the CVV is shorter than 3 or longer than 4 bytes, [ProcessPayment]
    returns an error with code [INVALID_REQUEST]. *)
Theorem invalid_request_rejected pr env request prov :
  processor.getProvider pr (Mode request) = (Some prov, None) ->
  spec.reference prov ->
  (Amount request <=? 0)%float = true
  \/ (String.length (CardNumber request) < 13)%nat
  \/ (19 < String.length (CardNumber request))%nat
  \/ (String.length (CVV request) < 3)%nat
  \/ (4 < String.length (CVV request))%nat ->
  exists reason,
    processor.ProcessPayment pr env request
    = Ok (None, Some {| Error.Success := false;
                        Error.ErrorCode := "INVALID_REQUEST";
                        Error.ErrorMessage := reason |}).
Proof.
  intros Hget [[p ->]|[p ->]] Hbad.
  - destruct (invalid_amount_card_cvv p request Hbad) as [reason Hval].
    exists reason. by rewrite (process_mastercard _ _ _ p Hget), Hval.
  - destruct (invalid_amount_card_cvv mastercard.GetNewMasterCardPaymentProvider
                request Hbad) as [reason Hval].
    exists reason.
    rewrite (process_visa _ _ _ p Hget).
    by rewrite (ValidateRequest_same mastercard.GetNewMasterCardPaymentProvider), Hval.
Qed.



(** Both adapters return their error envelope exactly when the draw is
    below 0.1. *)
Lemma error_envelope_iff_draw_below_tenth p q env request :
  ((mastercard.ProcessPayment p env request).2 <> VNil
   <-> (rand_Float64 env <? 0.1)%float = true)
  /\ ((visa.ProcessPayment q env request).2 <> VNil
      <-> (rand_Float64 env <? 0.1)%float = true).
Proof.
  unfold mastercard.ProcessPayment, visa.ProcessPayment.
  destruct (rand_Float64 env <? 0.1)%float; cbn [snd]; split; split; try done.
Qed.

(** C8, at the draw 0.125. The draw is below 0.15 and not below 0.1:
    mastercard returns its success envelope, as claimed, and so does visa,
    where the claim has the error envelope. *)
Theorem visa_succeeds_at_draw_between_thresholds p q now request :
  let env := {| rand_Float64 := 0.125%float; time_Now := now |} in
  (rand_Float64 env <? 0.15)%float = true
  /\ (rand_Float64 env <? 0.1)%float = false
  /\ (mastercard.ProcessPayment p env request).2 = VNil
  /\ (visa.ProcessPayment q env request).2 = VNil
  /\ (visa.ProcessPayment q env request).1 <> VNil.
Proof. repeat split; discriminate. Qed.

End Pipeline.

(** ** Concrete runs

    The statements above at the inputs of [main.go] and of the tests, with the
    library functions of [decimal]. *)

Section Runs.

Lemma main_reference : Forall (@spec.reference decimal.lib) [run.mastercard; run.visa].
Proof.
  constructor; [left; by eexists|].
  constructor; [right; by eexists|].
  constructor.
Defined.

Lemma main_resolves_visa :
  processor.getProvider run.main "visa" = (Some run.visa, None).
Proof.
  unfold processor.getProvider.
  change (processor.providers run.main !! "visa")
    with (processor.providers
            (processor.NewPaymentProcessor ([run.mastercard] ++ run.visa :: []))
          !! GetName run.visa).
  rewrite registry_last; [reflexivity|].
  intros q Hq. by apply elem_of_nil in Hq.
Defined.

Lemma main_resolves_mastercard :
  processor.getProvider run.main "mastercard" = (Some run.mastercard, None).
Proof.
  unfold processor.getProvider.
  change (processor.providers run.main !! "mastercard")
    with (processor.providers
            (processor.NewPaymentProcessor ([] ++ run.mastercard :: [run.visa]))
          !! GetName run.mastercard).
  rewrite registry_last; [reflexivity|].
  intros q Hq. apply list_elem_of_singleton in Hq. by subst q.
Defined.

Lemma exactly_one_result_main :
  Forall (@spec.reference decimal.lib) [run.mastercard; run.visa]
  /\ exists response err,
       processor.ProcessPayment run.main run.env (spec.sampleRequest "visa" 100%float)
       = Ok (response, err)
       /\ ((is_Some response /\ err = None) \/ (response = None /\ is_Some err)).
Proof.
  split; [exact main_reference|].
  destruct (@exactly_one_result decimal.lib [run.mastercard; run.visa] run.env
              (spec.sampleRequest "visa" 100%float) main_reference)
    as (response & err & Hrun & Hone & _).
  by exists response, err.
Defined.

(** [decimal] reads back what it writes, on the amounts of the repository's
    tests. *)
Lemma decimal_reads_back_test_amounts :
  Forall (fun amount => decimal.ParseFloat (decimal.FormatFloat amount) = (amount, None))
    [ 0.01; 1; 24.44; 25; 75.25; 85.5; 100; 1000; 999999.99; 1000000 ]%float.
Proof. repeat constructor. Qed.

(** An unregistered mode at the processor of [main.go]. *)
Lemma invalid_provider_main :
  Forall (@spec.reference decimal.lib) [run.mastercard; run.visa]
  /\ processor.ProcessPayment run.main run.env
       (spec.sampleRequest "invalid_provider" 100%float)
     = Ok (None, Some {| Error.Success := false;
                         Error.ErrorCode := "INVALID_PROVIDER";
                         Error.ErrorMessage :=
                           "invalid provider name provided: 'invalid_provider'" |}).
Proof.
  split; [exact main_reference|].
  apply (proj1 (@invalid_provider_at_resolve_only decimal.lib
                  [run.mastercard; run.visa] run.env
                  (spec.sampleRequest "invalid_provider" 100%float))).
  intros p Hp.
  apply elem_of_cons in Hp as [->|Hp]; [discriminate|].
  apply list_elem_of_singleton in Hp as ->. discriminate.
Defined.

(** A zero amount through visa at the processor of [main.go]. *)
Lemma invalid_request_main :
  processor.getProvider run.main (Mode (spec.sampleRequest "visa" 0%float))
  = (Some run.visa, None)
  /\ (Amount (spec.sampleRequest "visa" 0%float) <=? 0)%float = true
  /\ exists reason,
       processor.ProcessPayment run.main run.env (spec.sampleRequest "visa" 0%float)
       = Ok (None, Some {| Error.Success := false;
                           Error.ErrorCode := "INVALID_REQUEST";
                           Error.ErrorMessage := reason |}).
Proof.
  split; [exact main_resolves_visa|]. split; [reflexivity|].
  apply (@invalid_request_rejected decimal.lib run.main run.env
           (spec.sampleRequest "visa" 0%float) run.visa main_resolves_visa).
  - right. by eexists.
  - left. reflexivity.
Defined.


(** A NaN amount passes the validation of both adapters, both return a
    response, and its amount is not [==] to the amount of the request. *)
Lemma nan_amount_not_echoed :
  let request mode := spec.sampleRequest mode nan in
  mastercard.ValidateRequest mastercard.GetNewMasterCardPaymentProvider
    (request "mastercard") = None
  /\ visa.ValidateRequest visa.GetNewVisaPaymentProvider (request "visa") = None
  /\ (exists response,
        processor.ProcessPayment run.main run.env (request "mastercard")
        = Ok (Some response, None)
        /\ (Response.Amount response =? Amount (request "mastercard"))%float = false)
  /\ (exists response,
        processor.ProcessPayment run.main run.env (request "visa")
        = Ok (Some response, None)
        /\ (Response.Amount response =? Amount (request "visa"))%float = false).
Proof.
  split; [reflexivity|]. split; [reflexivity|].
  split; eexists; (split; [vm_compute; reflexivity|reflexivity]).
Qed.


(** The error envelope of the visa tests. *)
Lemma visa_error_mapping_card_declined :
  @visa.ParseErrorResponse decimal.lib visa.GetNewVisaPaymentProvider
    (VMap [ ("error_type", VString "PAYMENT_FAILED");
            ("reason", VString "Card declined");
            ("details", VMap [ ("code", VString "EE000011") ]) ])
  = (Some {| Error.Success := false;
             Error.ErrorCode := "EE000011";
             Error.ErrorMessage :=
               "ErrorType:PAYMENT_FAILED :: ErrorReason: Card declined" |}, None).
Proof.
  apply (@visa_error_mapping decimal.lib visa.GetNewVisaPaymentProvider
           "PAYMENT_FAILED" "Card declined" "EE000011"); reflexivity.
Defined.

(** The keys are the [json] tags of the struct: an entry under
    [errorType] matches no field, even up to case, and the type stays empty. *)
Lemma visa_error_key_is_error_type :
  @visa.ParseErrorResponse decimal.lib visa.GetNewVisaPaymentProvider
    (VMap [ ("errorType", VString "PAYMENT_FAILED");
            ("reason", VString "Card declined");
            ("details", VMap [ ("code", VString "EE000011") ]) ])
  = (Some {| Error.Success := false;
             Error.ErrorCode := "EE000011";
             Error.ErrorMessage := "ErrorType: :: ErrorReason: Card declined" |}, None).
Proof. reflexivity. Qed.

(** C7, counterexample. With the one-byte reason FF the message does not
    end in the reason but in U+FFFD. *)
Lemma visa_error_mapping_invalid_utf8 :
  let reason := String (ascii_of_N 255) "" in
  exists err,
    @visa.ParseErrorResponse decimal.lib visa.GetNewVisaPaymentProvider
      (VMap [ ("error_type", VString "PAYMENT_FAILED");
              ("reason", VString reason);
              ("details", VMap [ ("code", VString "EE000011") ]) ])
    = (Some err, None)
    /\ Error.ErrorMessage err
       = "ErrorType:PAYMENT_FAILED :: ErrorReason: " +:+ utf8.RuneError
    /\ Error.ErrorMessage err
       <> "ErrorType:PAYMENT_FAILED :: ErrorReason: " +:+ reason.
Proof.
  eexists. split; [vm_compute; reflexivity|]. split; [reflexivity|discriminate].
Qed.

(** Two adapters under the name visa: the one registered last answers. *)
Lemma last_registered_wins_visa_twice :
  let second := @mastercard.provider decimal.lib {| mastercard.Name := "visa" |} in
  GetName run.visa = GetName second
  /\ processor.getProvider (processor.NewPaymentProcessor [run.visa; second]) "visa"
     = (Some second, None).
Proof.
  split; [reflexivity|].
  apply (last_registered_wins [run.visa] []
           (@mastercard.provider decimal.lib {| mastercard.Name := "visa" |})).
  intros q Hq. by apply elem_of_nil in Hq.
Defined.


(** C2, at an envelope that has an amount and no transaction id.
    mastercard's [ParseSuccessResponse] reads the amount, then panics in the
    type assertion on ["transaction_id"]. *)
Theorem mastercard_parse_success_panics :
  @mastercard.ParseSuccessResponse decimal.lib mastercard.GetNewMasterCardPaymentProvider
    (VMap [ ("amount", VString "24.44") ])
  = Panic "interface conversion: interface {} is nil, not string".
Proof. reflexivity. Qed.

End Runs.

(** * Further properties of the code *)

(** ** More on the registry *)

Section RegistryMore.

(** What a name resolves to: the last adapter of the list that carries it. *)
Lemma registry_lookup ps (name : string) :
  processor.providers (processor.NewPaymentProcessor ps) !! name
  = last (filter (fun p => GetName p = name) ps).
Proof.
  unfold processor.NewPaymentProcessor.
  induction ps as [|q ps IH] using rev_ind; [done|].
  rewrite registerProviders_snoc, filter_app. cbn [processor.providers].
  destruct (decide (GetName q = name)) as [Heq|Hne].
  - rewrite Heq, lookup_insert_eq, filter_cons_True by done.
    rewrite filter_nil. by rewrite last_snoc.
  - rewrite lookup_insert_ne, filter_cons_False, filter_nil, app_nil_r by done.
    exact IH.
Qed.

(** X1. [getProvider] on a processor built from a list returns an adapter
    exactly when some adapter of the list carries the requested name; the
    adapter it returns is one of the list and carries that name, and it
    comes with a nil error. *)
Theorem getProvider_resolves_iff_registered ps (name : string) :
  ((exists p, p ∈ ps /\ GetName p = name)
   <-> exists prov,
         processor.getProvider (processor.NewPaymentProcessor ps) name = (Some prov, None))
  /\ (forall prov err,
        processor.getProvider (processor.NewPaymentProcessor ps) name = (Some prov, err) ->
        prov ∈ ps /\ GetName prov = name /\ err = None).
Proof.
  split.
  - split.
    + intros (p & Hin & Hname).
      destruct (resolve_cases ps name) as [[_ Hnone]|(prov & Hget & _)].
      * by destruct (Hnone p Hin).
      * by exists prov.
    + intros [prov Hget].
      destruct (resolve_cases ps name) as [[Hget' _]|(prov' & Hget' & Hin & Hname)].
      * rewrite Hget' in Hget. discriminate.
      * by exists prov'.
  - intros prov err Hget.
    destruct (resolve_cases ps name) as [[Hget' _]|(prov' & Hget' & Hin & Hname)];
      rewrite Hget' in Hget; [discriminate|].
    by injection Hget as <- <-.
Qed.

(** With distinct names, a name resolves to the adapter of the list that
    carries it. *)
Lemma registry_lookup_distinct ps p :
  NoDup (GetName <$> ps) -> p ∈ ps ->
  processor.providers (processor.NewPaymentProcessor ps) !! GetName p = Some p.
Proof.
  intros Hnd Hin.
  destruct (list_elem_of_split _ _ Hin) as (before & after & ->).
  apply registry_last. intros q Hq Heq.
  rewrite fmap_app, fmap_cons in Hnd.
  apply NoDup_app in Hnd as (_ & _ & Hnd).
  apply NoDup_cons in Hnd as [Hnotin _].
  apply Hnotin. rewrite <- Heq. by apply list_elem_of_fmap_2.
Qed.

(** X2. When the adapters of a list carry distinct names, the order in
    which they are registered does not matter: every permutation of the
    list builds the same registry. *)
Theorem registration_order_irrelevant_for_distinct_names (ps ps' : list Provider) :
  NoDup (GetName <$> ps) ->
  ps ≡ₚ ps' ->
  processor.NewPaymentProcessor ps = processor.NewPaymentProcessor ps'.
Proof.
  intros Hnd Hperm.
  assert (Hnd' : NoDup (GetName <$> ps')) by (by rewrite <- Hperm).
  assert (Heq : processor.providers (processor.NewPaymentProcessor ps)
                = processor.providers (processor.NewPaymentProcessor ps')).
  { apply map_eq. intros name.
    destruct (processor.providers (processor.NewPaymentProcessor ps) !! name)
      as [p|] eqn:Hl.
    - apply registry_registered in Hl as [Hin <-].
      symmetry. apply registry_lookup_distinct; [done|]. by rewrite <- Hperm.
    - destruct (processor.providers (processor.NewPaymentProcessor ps') !! name)
        as [q|] eqn:Hl'; [|done].
      apply registry_registered in Hl' as [Hin <-].
      rewrite registry_lookup_distinct in Hl; [discriminate|done|by rewrite Hperm]. }
  destruct (processor.NewPaymentProcessor ps), (processor.NewPaymentProcessor ps').
  cbn in Heq. by subst.
Qed.

(** X3. Registering the adapters of a list a second time changes nothing. *)
Theorem registration_idempotent (ps : list Provider) :
  processor.NewPaymentProcessor (ps ++ ps) = processor.NewPaymentProcessor ps.
Proof.
  assert (Heq : processor.providers (processor.NewPaymentProcessor (ps ++ ps))
                = processor.providers (processor.NewPaymentProcessor ps)).
  { apply map_eq. intros name. rewrite !registry_lookup, filter_app.
    destruct (filter (fun p => GetName p = name) ps) as [|q l] eqn:Hf using rev_ind;
      [done|].
    by rewrite app_assoc, !last_snoc. }
  destruct (processor.NewPaymentProcessor (ps ++ ps)), (processor.NewPaymentProcessor ps).
  cbn in Heq. by subst.
Qed.

End RegistryMore.

Section RegistryRuns.
Context `{Lib}.

(** X4. The processor of [main.go], built from the two adapters as their
    constructors make them, resolves exactly the modes ["mastercard"] and
    ["visa"], each to the adapter of that name; any other mode, a different
    spelling included, gets the error of [getProvider]. *)
Theorem main_processor_modes (mode : string) :
  let mc := mastercard.provider mastercard.GetNewMasterCardPaymentProvider in
  let vs := visa.provider visa.GetNewVisaPaymentProvider in
  let main := processor.NewPaymentProcessor [mc; vs] in
  (mode = "mastercard" -> processor.getProvider main mode = (Some mc, None))
  /\ (mode = "visa" -> processor.getProvider main mode = (Some vs, None))
  /\ (mode <> "mastercard" -> mode <> "visa" ->
      processor.getProvider main mode
      = (None, Some ("invalid provider name provided: '" +:+ mode +:+ "'"))).
Proof.
  intros mc vs main. unfold processor.getProvider, main.
  rewrite registry_lookup. cbn [filter list_filter].
  change (GetName mc) with "mastercard". change (GetName vs) with "visa".
  repeat split.
  - intros ->. by rewrite decide_True, decide_False.
  - intros ->. by rewrite decide_False, decide_True.
  - intros Hm Hv. by rewrite !decide_False.
Qed.

End RegistryRuns.

(** ** More on validation *)

Section ValidationMore.

Lemma eqb_empty s : String.eqb s "" = true <-> s = "".
Proof. apply String.eqb_eq. Qed.

(** mastercard's verdict, rule by rule. *)
Lemma validate_accepts_iff_aux (m : mastercard.MasterCardPaymentProvider)
    (request : PaymentRequest) :
  mastercard.ValidateRequest m request = None
  <-> (Amount request <=? 0)%float = false
      /\ (1000000 <? Amount request)%float = false
      /\ Currency request <> ""
      /\ (13 <= String.length (CardNumber request) <= 19)%nat
      /\ ExpiryMonth request <> ""
      /\ ExpiryYear request <> ""
      /\ (3 <= String.length (CVV request) <= 4)%nat.
Proof.
  unfold mastercard.ValidateRequest.
  destruct (Amount request <=? 0)%float; [split; [discriminate|intros [? _]; discriminate]|].
  destruct (1000000 <? Amount request)%float;
    [split; [discriminate|intros (_ & ? & _); discriminate]|].
  destruct (String.eqb (Currency request) "") eqn:Hc.
  { apply eqb_empty in Hc. split; [discriminate|]. intros (_ & _ & ? & _). done. }
  apply String.eqb_neq in Hc.
  destruct (String.eqb (CardNumber request) "") eqn:Hn.
  { apply eqb_empty in Hn. rewrite Hn. cbn.
    split; [discriminate|]. intros (_ & _ & _ & ? & _). lia. }
  destruct ((String.length (CardNumber request) <? 13)%nat
            || (19 <? String.length (CardNumber request))%nat) eqn:Hl.
  { apply orb_true_iff in Hl. rewrite !Nat.ltb_lt in Hl.
    split; [discriminate|]. intros (_ & _ & _ & ? & _). lia. }
  apply orb_false_iff in Hl. rewrite !Nat.ltb_ge in Hl.
  destruct (String.eqb (ExpiryMonth request) "") eqn:Hmo.
  { apply eqb_empty in Hmo. cbn. split; [discriminate|]. intros (_&_&_&_& ? & _). done. }
  apply String.eqb_neq in Hmo.
  destruct (String.eqb (ExpiryYear request) "") eqn:Hy.
  { apply eqb_empty in Hy. cbn. split; [discriminate|]. intros (_&_&_&_&_& ? & _). done. }
  apply String.eqb_neq in Hy. cbn [orb].
  destruct (String.eqb (CVV request) "") eqn:Hv.
  { apply eqb_empty in Hv. rewrite Hv. cbn.
    split; [discriminate|]. intros (_&_&_&_&_&_& ?). lia. }
  destruct ((String.length (CVV request) <? 3)%nat
            || (4 <? String.length (CVV request))%nat) eqn:Hlv.
  { apply orb_true_iff in Hlv. rewrite !Nat.ltb_lt in Hlv.
    split; [discriminate|]. intros (_&_&_&_&_&_& ?). lia. }
  apply orb_false_iff in Hlv. rewrite !Nat.ltb_ge in Hlv.
  split; [intros _|done]. repeat split; (done || lia).
Qed.

(** X5. What the adapters accept: a request passes [ValidateRequest] of
    either adapter exactly when its amount is neither [<= 0] nor
    [> 1000000], its currency is not empty, its card number has 13 to 19
    bytes, its expiry month and year are not empty, and its CVV has 3 or 4
    bytes. *)
Theorem validate_accepts_iff
    (m : mastercard.MasterCardPaymentProvider) (v : visa.VisaPaymentProvider)
    (request : PaymentRequest) :
  let accepted :=
    (Amount request <=? 0)%float = false
    /\ (1000000 <? Amount request)%float = false
    /\ Currency request <> ""
    /\ (13 <= String.length (CardNumber request) <= 19)%nat
    /\ ExpiryMonth request <> ""
    /\ ExpiryYear request <> ""
    /\ (3 <= String.length (CVV request) <= 4)%nat in
  (mastercard.ValidateRequest m request = None <-> accepted)
  /\ (visa.ValidateRequest v request = None <-> accepted).
Proof.
  intros accepted. split.
  - apply validate_accepts_iff_aux.
  - rewrite (ValidateRequest_same m). apply validate_accepts_iff_aux.
Qed.

(** X6. The two amount rules are comparisons, and a NaN amount satisfies
    neither: a request with a NaN amount is never answered with one of the
    two amount reasons, and it is accepted when the other rules hold. *)
Theorem nan_amount_passes_amount_rules
    (m : mastercard.MasterCardPaymentProvider) (v : visa.VisaPaymentProvider)
    (request : PaymentRequest) :
  Amount request = nan ->
  mastercard.ValidateRequest m request <> Some "amount must be greater than 0"
  /\ mastercard.ValidateRequest m request
     <> Some "amount exceeds maximum limit of 1,000,000"
  /\ visa.ValidateRequest v request = mastercard.ValidateRequest m request
  /\ (Currency request <> "" ->
      (13 <= String.length (CardNumber request) <= 19)%nat ->
      ExpiryMonth request <> "" -> ExpiryYear request <> "" ->
      (3 <= String.length (CVV request) <= 4)%nat ->
      mastercard.ValidateRequest m request = None).
Proof.
  intros Hnan.
  assert (Hrest : mastercard.ValidateRequest m request
                  = snd <$> List.find (fun c => c.1 request) (drop 2 spec.check_order)).
  { rewrite mastercard_first_violation. unfold spec.first_violation, spec.check_order.
    cbn [List.find fst snd drop]. by rewrite Hnan. }
  split; [|split; [|split]].
  - rewrite Hrest. unfold spec.check_order. cbn [List.find fst snd drop].
    repeat match goal with
           | |- context [if ?b then _ else _] => destruct b; [discriminate|]
           end.
    discriminate.
  - rewrite Hrest. unfold spec.check_order. cbn [List.find fst snd drop].
    repeat match goal with
           | |- context [if ?b then _ else _] => destruct b; [discriminate|]
           end.
    discriminate.
  - reflexivity.
  - intros Hc Hn Hmo Hy Hv.
    apply (proj2 (validate_accepts_iff_aux m request)).
    repeat split; try done; try lia; by rewrite Hnan.
Qed.

End ValidationMore.

Section ValidationContent.

Lemma eqb_empty_length s : String.eqb s "" = Nat.eqb (String.length s) 0.
Proof. by destruct s. Qed.

Lemma eqb_empty_iff s s' : (s = "" <-> s' = "") -> String.eqb s "" = String.eqb s' "".
Proof.
  intros Hiff. destruct s, s'; try reflexivity.
  - by destruct (proj1 Hiff eq_refl).
  - by destruct (proj2 Hiff eq_refl).
Qed.

(** X7. Validation never looks at the content of a string: the verdict is
    settled by the amount, by whether currency, expiry month and expiry year
    are empty, and by the lengths of card number and CVV.  The mode is not
    looked at either. *)
Theorem validate_looks_at_lengths_only
    (m : mastercard.MasterCardPaymentProvider) (v : visa.VisaPaymentProvider)
    (request request' : PaymentRequest) :
  Amount request = Amount request' ->
  (Currency request = "" <-> Currency request' = "") ->
  String.length (CardNumber request) = String.length (CardNumber request') ->
  (ExpiryMonth request = "" <-> ExpiryMonth request' = "") ->
  (ExpiryYear request = "" <-> ExpiryYear request' = "") ->
  String.length (CVV request) = String.length (CVV request') ->
  mastercard.ValidateRequest m request = mastercard.ValidateRequest m request'
  /\ visa.ValidateRequest v request = visa.ValidateRequest v request'.
Proof.
  intros Ha Hc Hn Hmo Hy Hv.
  assert (Hsame : mastercard.ValidateRequest m request
                  = mastercard.ValidateRequest m request').
  { unfold mastercard.ValidateRequest.
    rewrite Ha, (eqb_empty_iff _ _ Hc), (eqb_empty_iff _ _ Hmo), (eqb_empty_iff _ _ Hy).
    rewrite !(eqb_empty_length (CardNumber _)), !(eqb_empty_length (CVV _)).
    by rewrite Hn, Hv. }
  split; [exact Hsame|].
  by rewrite !(ValidateRequest_same m).
Qed.

End ValidationContent.

(** ** More on the parsers of the adapters *)

Section ParsersMore.
Context `{Lib}.

(** X8. What mastercard's [ParseSuccessResponse] reads: when the amount
    entry is a string [ParseFloat] accepts and transaction id, status and
    currency are strings, it returns a response with these four values as
    they are; the timestamp is taken when it is a [time.Time] and is the zero
    time otherwise; no other entry of the envelope matters. *)
Theorem mastercard_parse_success_reads p data amountStr amount transactionID status currency :
  index data "amount" = VString amountStr ->
  ParseFloat amountStr = (amount, None) ->
  index data "transaction_id" = VString transactionID ->
  index data "status" = VString status ->
  index data "currency" = VString currency ->
  mastercard.ParseSuccessResponse p (VMap data)
  = Ok (Some {| Response.Success := true;
                Response.TransactionID := transactionID;
                Response.Status := status;
                Response.Amount := amount;
                Response.Currency := currency;
                Response.Date :=
                  Some match index data "timestamp" with
                       | VTime t => t
                       | _ => zeroTime
                       end |}, None).
Proof.
  intros Ha Hp Ht Hs Hc. unfold mastercard.ParseSuccessResponse.
  by rewrite Ha, Hp, Ht, Hs, Hc.
Qed.

(** X9. mastercard's [ParseSuccessResponse] panics exactly on the maps
    whose amount is a string [ParseFloat] accepts while transaction id,
    status or currency is not a string; on every other envelope it returns,
    and then exactly one of the response and the error is non-nil. *)
Theorem mastercard_parse_success_panics_iff p response :
  ((exists msg, mastercard.ParseSuccessResponse p response = Panic msg)
   <-> exists data amountStr amount,
         response = VMap data
         /\ index data "amount" = VString amountStr
         /\ ParseFloat amountStr = (amount, None)
         /\ ((forall s, index data "transaction_id" <> VString s)
             \/ (forall s, index data "status" <> VString s)
             \/ (forall s, index data "currency" <> VString s)))
  /\ (forall r e,
        mastercard.ParseSuccessResponse p response = Ok (r, e) ->
        (is_Some r /\ e = None) \/ (r = None /\ is_Some e)).
Proof.
  unfold mastercard.ParseSuccessResponse. split; [split|].
  - intros [msg Hpanic].
    destruct response as [| | | | | | |data|]; try discriminate.
    destruct (index data "amount") as [| | | |amountStr| | | |] eqn:Ha; try discriminate.
    destruct (ParseFloat amountStr) as [amount [err|]] eqn:Hp; [discriminate|].
    exists data, amountStr, amount. repeat split; try done.
    destruct (index data "transaction_id") eqn:Ht; try (left; discriminate).
    destruct (index data "status") eqn:Hs; try (right; left; discriminate).
    destruct (index data "currency") eqn:Hc; right; right; discriminate.
  - intros (data & amountStr & amount & -> & Ha & Hp & Hbad).
    rewrite Ha, Hp.
    destruct (index data "transaction_id") as [| | | |t| | | |] eqn:Ht;
      try (by eexists).
    destruct (index data "status") as [| | | |s| | | |] eqn:Hs;
      try (by eexists).
    destruct (index data "currency") as [| | | |c| | | |] eqn:Hc;
      try (by eexists).
    destruct Hbad as [Hbad|[Hbad|Hbad]]; [by destruct (Hbad t)|by destruct (Hbad s)|
                                           by destruct (Hbad c)].
  - intros r e.
    destruct response as [| | | | | | |data|];
      try (intros [= <- <-]; right; eauto).
    destruct (index data "amount") as [| | | |amountStr| | | |];
      try (intros [= <- <-]; right; eauto).
    destruct (ParseFloat amountStr) as [amount [err|]];
      [intros [= <- <-]; right; eauto|].
    destruct (index data "transaction_id"); try discriminate.
    destruct (index data "status"); try discriminate.
    destruct (index data "currency"); try discriminate.
    intros [= <- <-]. left. eauto.
Qed.

(** X10. The flat error shape: for an error envelope with the two entries
    [error_code] and [message], both valid UTF-8, mastercard's
    [ParseErrorResponse] returns the error with that code and that message. *)
Theorem mastercard_error_mapping p code message :
  utf8.ValidString code = true ->
  utf8.ValidString message = true ->
  mastercard.ParseErrorResponse p
    (VMap [ ("error_code", VString code); ("message", VString message) ])
  = (Some {| Error.Success := false;
             Error.ErrorCode := code;
             Error.ErrorMessage := message |}, None).
Proof.
  intros Hc Hm. rewrite mastercard_parse_error_shape. by rewrite !coerce_valid.
Qed.

(** X11. The three parsers that go through JSON return exactly one of
    their two results, fail with one of two fixed messages each, and set the
    flags: an error has [Success = false], a response has [Success = true]
    and a date.  Which of the three outcomes it is, is settled by the
    encoding: a result or the type message only when the envelope has a JSON
    encoding, the marshalling message exactly when it has none. *)
Theorem json_parsers_return_exactly_one m v response :
  ((exists e j, mastercard.ParseErrorResponse m response = (Some e, None)
                /\ Error.Success e = false /\ json.Marshal response = inl j)
   \/ (mastercard.ParseErrorResponse m response
       = (None, Some "error marshalling error response")
       /\ exists e, json.Marshal response = inr e)
   \/ (mastercard.ParseErrorResponse m response
       = (None, Some "invalid response error type")
       /\ exists j, json.Marshal response = inl j))
  /\ ((exists e j, visa.ParseErrorResponse v response = (Some e, None)
                   /\ Error.Success e = false /\ json.Marshal response = inl j)
      \/ (visa.ParseErrorResponse v response
          = (None, Some "error marshalling error response")
          /\ exists e, json.Marshal response = inr e)
      \/ (visa.ParseErrorResponse v response
          = (None, Some "invalid response error type")
          /\ exists j, json.Marshal response = inl j))
  /\ ((exists r j, visa.ParseSuccessResponse v response = (Some r, None)
                   /\ Response.Success r = true /\ is_Some (Response.Date r)
                   /\ json.Marshal response = inl j)
      \/ (visa.ParseSuccessResponse v response
          = (None, Some "error marshalling response")
          /\ exists e, json.Marshal response = inr e)
      \/ (visa.ParseSuccessResponse v response
          = (None, Some "invalid response type")
          /\ exists j, json.Marshal response = inl j))
  /\ ((exists e, json.Marshal response = inr e)
      <-> mastercard.ParseErrorResponse m response
          = (None, Some "error marshalling error response"))
  /\ ((exists e, json.Marshal response = inr e)
      <-> visa.ParseErrorResponse v response
          = (None, Some "error marshalling error response"))
  /\ ((exists e, json.Marshal response = inr e)
      <-> visa.ParseSuccessResponse v response
          = (None, Some "error marshalling response")).
Proof.
  unfold mastercard.ParseErrorResponse, visa.ParseErrorResponse,
    visa.ParseSuccessResponse.
  destruct (json.Marshal response) as [j|e].
  2:{ repeat split; try (right; left; eauto); eauto. }
  split; [|split; [|split; [|split; [|split]]]].
  - destruct (json.intoStruct _ mastercard.PaymentError_fields j _) as [r [e|]];
      [right; right; eauto|left; eauto].
  - destruct (json.intoStruct _ visa.PaymentError_fields j _) as [r [e|]];
      [right; right; eauto|left; eauto].
  - destruct (json.intoStruct _ visa.PaymentResponse_fields j _) as [r [e|]];
      [right; right; eauto|left; eexists _, _; repeat split; eauto].
  - split; [by intros [e [=]]|].
    by destruct (json.intoStruct _ mastercard.PaymentError_fields j _) as [r [e|]].
  - split; [by intros [e [=]]|].
    by destruct (json.intoStruct _ visa.PaymentError_fields j _) as [r [e|]].
  - split; [by intros [e [=]]|].
    by destruct (json.intoStruct _ visa.PaymentResponse_fields j _) as [r [e|]].
Qed.

End ParsersMore.

(** ** More on decoding *)

Section JsonMore.
Context `{Lib}.







End JsonMore.

Section ParseErrorRejections.
Context `{Lib}.

(** X13. Entries of the wrong type make [ParseErrorResponse] fail: when a
    map has an entry the adapter reads ([error_code] or [message] for
    mastercard; [error_type], [reason], [details] or the [code] inside
    [details] for visa) whose value is encoded as another JSON type than the
    field takes, the adapter returns an error and no normalized error. *)
Theorem parse_error_rejects_wrong_types m v data k x jx :
  In (k, x) data ->
  json.Marshal x = inl jx ->
  ((k = "error_code" \/ k = "message") /\ json.stringOrNull jx = false ->
   exists e, mastercard.ParseErrorResponse m (VMap data) = (None, Some e))
  /\ (((k = "error_type" \/ k = "reason") /\ json.stringOrNull jx = false)
      \/ (k = "details" /\ json.objectOrNull jx = false)
      \/ (k = "details"
          /\ exists inner c jc,
               x = VMap inner /\ In ("code", c) inner
               /\ json.Marshal c = inl jc /\ json.stringOrNull jc = false) ->
      exists e, visa.ParseErrorResponse v (VMap data) = (None, Some e)).
Proof.
  intros Hin Hx.
  unfold mastercard.ParseErrorResponse, visa.ParseErrorResponse.
  destruct (json.Marshal (VMap data)) as [j|e] eqn:Hm.
  2:{ split; intros _; by eexists. }
  destruct (Marshal_VMap_entry _ _ _ _ Hm Hin) as (kvs & jx' & -> & Hx' & Hin').
  rewrite Hx in Hx'. injection Hx' as <-.
  split.
  - intros [Hk Hshape].
    assert (Hbad : (json.intoStruct "mastercard.PaymentError"
                      mastercard.PaymentError_fields (json.JObject kvs)
                      {| mastercard.ErrorCode := ""; mastercard.Message := "" |}).2
                   <> None).
    { destruct Hk as [-> | ->].
      - eapply intoStruct_mismatch; [exact Hin'|reflexivity|].
        intros r. cbn [snd].
        pose proof (intoString_mismatch jx (mastercard.ErrorCode r) Hshape).
        by destruct (json.intoString jx (mastercard.ErrorCode r)).
      - eapply intoStruct_mismatch; [exact Hin'|reflexivity|].
        intros r. cbn [snd].
        pose proof (intoString_mismatch jx (mastercard.Message r) Hshape).
        by destruct (json.intoString jx (mastercard.Message r)). }
    destruct (json.intoStruct _ _ _ _) as [r [e|]]; [by eexists|by destruct Hbad].
  - intros Hcase.
    assert (Hbad : (json.intoStruct "visa.PaymentError" visa.PaymentError_fields
                      (json.JObject kvs)
                      {| visa.ErrorType := ""; visa.Reason := "";
                         visa.Details := {| visa.Code := "" |} |}).2 <> None).
    { destruct Hcase as [[[-> | ->] Hshape]|[[-> Hshape]|
                         [-> (inner & c & jc & -> & Hc & Hjc & Hshape)]]].
      - eapply intoStruct_mismatch; [exact Hin'|reflexivity|].
        intros r. cbn [snd].
        pose proof (intoString_mismatch jx (visa.ErrorType r) Hshape).
        by destruct (json.intoString jx (visa.ErrorType r)).
      - eapply intoStruct_mismatch; [exact Hin'|reflexivity|].
        intros r. cbn [snd].
        pose proof (intoString_mismatch jx (visa.Reason r) Hshape).
        by destruct (json.intoString jx (visa.Reason r)).
      - eapply intoStruct_mismatch; [exact Hin'|reflexivity|].
        intros r. cbn [snd]. by destruct jx.
      - destruct (Marshal_VMap_entry _ _ _ _ Hx Hc) as (kvs' & jc' & -> & Hjc' & Hin'').
        rewrite Hjc in Hjc'. injection Hjc' as <-.
        eapply intoStruct_mismatch; [exact Hin'|reflexivity|].
        intros r. cbn [snd].
        assert (Hinner : (json.intoStruct "struct" visa.Details_fields
                            (json.JObject kvs') (visa.Details r)).2 <> None).
        { eapply intoStruct_mismatch; [exact Hin''|reflexivity|].
          intros d. cbn [snd].
          pose proof (intoString_mismatch jc (visa.Code d) Hshape).
          by destruct (json.intoString jc (visa.Code d)). }
        by destruct (json.intoStruct "struct" visa.Details_fields _ _). }
    destruct (json.intoStruct _ _ _ _) as [r [e|]]; [by eexists|by destruct Hbad].
Qed.

End ParseErrorRejections.

Section UnknownEntries.
Context `{Lib}.





End UnknownEntries.

(** ** The success envelopes, whatever they hold *)

Section SuccessEnvelopes.
Context `{Lib}.

(** Searching the names of the fields is searching the fields by name. *)
Lemma find_names {S} (test : string -> bool) (fields : list (string * json.setter S)) :
  List.find test (fst <$> fields) = fst <$> List.find (fun f => test f.1) fields.
Proof.
  induction fields as [|f fields IH]; [done|].
  cbn [fmap list_fmap List.find]. by destruct (test f.1).
Qed.

(** [shape.fieldOf] names the field [json.findField] picks. *)
Lemma fieldOf_findField {S} (fields : list (string * json.setter S)) key :
  match shape.fieldOf (fst <$> fields) key with
  | Some name => exists set, json.findField fields key = Some set /\ In (name, set) fields
  | None => json.findField fields key = None
  end.
Proof.
  unfold shape.fieldOf, json.findField.
  rewrite (find_names (fun n => String.eqb n key)),
    (find_names (fun n => String.eqb (json.foldName n) (json.foldName key))).
  destruct (List.find (fun f => String.eqb f.1 key) fields) as [[n set]|] eqn:Hexact;
    cbn [fmap option_fmap option_map fst snd].
  { exists set. split; [done|]. by apply find_some in Hexact as [Hin _]. }
  destruct (List.find (fun f => String.eqb (json.foldName f.1) (json.foldName key)) fields)
    as [[n set]|] eqn:Hfold;
    cbn [fmap option_fmap option_map fst snd]; [|done].
  exists set. split; [done|]. by apply find_some in Hfold as [Hin _].
Qed.
























End SuccessEnvelopes.

Section SuccessEnvelopeRuns.


(** The amount string of an envelope need not be a number: visa returns the
    response with what [ParseFloat] returned beside its error. *)
Lemma parse_success_drops_amount_error :
  let response :=
    VMap [ ("payment_id", VString "PPAAYY--778899--XXYYZZ");
           ("state", VString "SUCCESS");
           ("value", VMap [ ("amount", VString "abc");
                            ("currency_code", VString "USD") ]);
           ("processed_at", VInt 1677587921) ] in
  (decimal.ParseFloat "abc").2 <> None
  /\ @visa.ParseSuccessResponse decimal.lib visa.GetNewVisaPaymentProvider response
     = (Some {| Response.Success := true;
                Response.TransactionID := "PPAAYY--778899--XXYYZZ";
                Response.Status := "SUCCESS";
                Response.Amount := 0%float;
                Response.Currency := "USD";
                Response.Date := Some (time_Unix 1677587921 0) |}, None).
Proof. split; [discriminate|reflexivity]. Qed.

End SuccessEnvelopeRuns.

(** ** More on the pipeline *)

Section PipelineMore.
Context `{Lib}.

(** X15. The errors of a reference adapter, stage by stage.  When the mode
    resolves to a reference adapter and [ProcessPayment] returns an error,
    there is no response beside it, its [Success] is [false], and it is one
    of: [INVALID_REQUEST] with the reason of the adapter's validation; the
    adapter's own decline ([MC0001] or [EE000011]) after a passed validation
    and a draw below 0.1; [PARSING_ERROR], which only mastercard produces,
    after a passed validation and a draw not below 0.1, when [ParseFloat]
    rejects the amount text.  [PROCESSING_ERROR] does not occur. *)
Theorem reference_errors_by_stage pr env request prov response err :
  processor.getProvider pr (Mode request) = (Some prov, None) ->
  spec.reference prov ->
  processor.ProcessPayment pr env request = Ok (response, Some err) ->
  response = None /\ Error.Success err = false
  /\ Error.ErrorCode err <> "PROCESSING_ERROR"
  /\ ((Error.ErrorCode err = "INVALID_REQUEST"
       /\ ValidateRequest prov request = Ok (Some (Error.ErrorMessage err)))
      \/ (ValidateRequest prov request = Ok None
          /\ (rand_Float64 env <? 0.1)%float = true
          /\ ((Error.ErrorCode err = "MC0001"
               /\ Error.ErrorMessage err = "Insufficient funds"
               /\ exists p, prov = mastercard.provider p)
              \/ (Error.ErrorCode err = "EE000011"
                  /\ Error.ErrorMessage err
                     = "ErrorType:PAYMENT_FAILED :: ErrorReason: Card declined"
                  /\ exists p, prov = visa.provider p)))
      \/ (ValidateRequest prov request = Ok None
          /\ (rand_Float64 env <? 0.1)%float = false
          /\ Error.ErrorCode err = "PARSING_ERROR"
          /\ (exists p, prov = mastercard.provider p)
          /\ exists parseError,
               (ParseFloat (FormatFloat (Amount request))).2 = Some parseError)).
Proof.
  intros Hget [[p ->]|[p ->]].
  - rewrite (process_mastercard _ _ _ p Hget).
    cbn [mastercard.provider ValidateRequest].
    destruct (mastercard.ValidateRequest p request) as [reason|].
    { intros [= <- <-]. repeat split; try done. by left. }
    destruct (rand_Float64 env <? 0.1)%float.
    { intros [= <- <-]. repeat split; try done.
      right; left. repeat split. left. repeat split. by exists p. }
    destruct (ParseFloat (FormatFloat (Amount request))) as [parsed [perr|]];
      [|discriminate].
    intros [= <- <-]. repeat split; try done.
    right; right. repeat split; [by exists p|by exists perr].
  - rewrite (process_visa _ _ _ p Hget).
    cbn [visa.provider ValidateRequest].
    destruct (visa.ValidateRequest p request) as [reason|].
    { intros [= <- <-]. repeat split; try done. by left. }
    destruct (rand_Float64 env <? 0.1)%float; [|discriminate].
    intros [= <- <-]. repeat split; try done.
    right; left. repeat split. right. repeat split. by exists p.
Qed.

(** X16. A payment through mastercard that goes well: when the mode
    resolves to a mastercard adapter, the request passes its validation, the
    draw is not below 0.1 and [ParseFloat] reads the amount text as [amount],
    [ProcessPayment] returns the response with transaction id
    [TX1234567890], status [APPROVED], that amount, the currency of the
    request as it is, and the clock's time. *)
Theorem mastercard_payment_approved pr env request p amount :
  processor.getProvider pr (Mode request) = (Some (mastercard.provider p), None) ->
  mastercard.ValidateRequest p request = None ->
  (rand_Float64 env <? 0.1)%float = false ->
  ParseFloat (FormatFloat (Amount request)) = (amount, None) ->
  processor.ProcessPayment pr env request
  = Ok (Some {| Response.Success := true;
                Response.TransactionID := "TX1234567890";
                Response.Status := "APPROVED";
                Response.Amount := amount;
                Response.Currency := Currency request;
                Response.Date := Some (time_Now env) |}, None).
Proof.
  intros Hget Hval Hdraw Hparse.
  by rewrite (process_mastercard _ _ _ p Hget), Hval, Hdraw, Hparse.
Qed.

(** X17. A payment through visa that goes well: when the mode resolves to
    a visa adapter, the request passes its validation and the draw is not
    below 0.1, [ProcessPayment] returns a response, whatever [strconv] does:
    payment id [PPAAYY--778899--XXYYZZ], state [SUCCESS], the date
    1677587921 seconds after the epoch, the currency coerced to valid UTF-8,
    and as amount what [ParseFloat] makes of the amount text, zero with an
    error included. *)
Theorem visa_payment_succeeds pr env request p :
  processor.getProvider pr (Mode request) = (Some (visa.provider p), None) ->
  visa.ValidateRequest p request = None ->
  (rand_Float64 env <? 0.1)%float = false ->
  processor.ProcessPayment pr env request
  = Ok (Some {| Response.Success := true;
                Response.TransactionID := "PPAAYY--778899--XXYYZZ";
                Response.Status := "SUCCESS";
                Response.Amount :=
                  fst (ParseFloat (utf8.coerce (FormatFloat (Amount request))));
                Response.Currency := utf8.coerce (Currency request);
                Response.Date := Some (time_Unix 1677587921 0) |}, None).
Proof.
  intros Hget Hval Hdraw.
  by rewrite (process_visa _ _ _ p Hget), Hval, Hdraw.
Qed.

(** X18. A declined payment: when the mode resolves to a reference adapter,
    the request passes its validation and the draw is below 0.1,
    [ProcessPayment] returns the adapter's own error, [MC0001] "Insufficient
    funds" for mastercard and [EE000011] with the labelled message for visa,
    and no response. *)
Theorem payment_declined_below_tenth pr env request prov :
  processor.getProvider pr (Mode request) = (Some prov, None) ->
  ValidateRequest prov request = Ok None ->
  (rand_Float64 env <? 0.1)%float = true ->
  ((exists p, prov = mastercard.provider p) ->
   processor.ProcessPayment pr env request
   = Ok (None, Some {| Error.Success := false; Error.ErrorCode := "MC0001";
                       Error.ErrorMessage := "Insufficient funds" |}))
  /\ ((exists p, prov = visa.provider p) ->
      processor.ProcessPayment pr env request
      = Ok (None, Some {| Error.Success := false; Error.ErrorCode := "EE000011";
                          Error.ErrorMessage :=
                            "ErrorType:PAYMENT_FAILED :: ErrorReason: Card declined" |})).
Proof.
  intros Hget Hval Hdraw. split; intros [p ->].
  - rewrite (process_mastercard _ _ _ p Hget), Hdraw.
    cbn [mastercard.provider ValidateRequest] in Hval. by injection Hval as ->.
  - rewrite (process_visa _ _ _ p Hget), Hdraw.
    cbn [visa.provider ValidateRequest] in Hval. by injection Hval as ->.
Qed.

(** X19. The processor does not recover from a panic of an adapter: for any
    adapter, when the mode resolves to it and one of its methods panics on
    the way (validation; invocation after a passed validation; parsing of
    the envelope invocation returned), [ProcessPayment] panics with the same
    message. *)
Theorem adapter_panic_reaches_caller pr env request prov msg :
  processor.getProvider pr (Mode request) = (Some prov, None) ->
  ValidateRequest prov request = Panic msg
  \/ (ValidateRequest prov request = Ok None
      /\ (providers.ProcessPayment prov env request = Panic msg
          \/ (exists envelope,
                providers.ProcessPayment prov env request = Ok (envelope, VNil)
                /\ ParseSuccessResponse prov envelope = Panic msg)
          \/ (exists envelope errorEnvelope,
                providers.ProcessPayment prov env request = Ok (envelope, errorEnvelope)
                /\ errorEnvelope <> VNil
                /\ ParseErrorResponse prov errorEnvelope = Panic msg))) ->
  processor.ProcessPayment pr env request = Panic msg.
Proof.
  intros Hget Hcase. unfold processor.ProcessPayment. rewrite Hget.
  destruct Hcase as [Hv|[Hv [Hp|[(envelope & Hp & Hs)|(envelope & errorEnvelope & Hp & Hne & He)]]]];
    rewrite Hv; cbn [mbind result_bind]; [done| |  |].
  - by rewrite Hp.
  - rewrite Hp. cbn [mbind result_bind]. by rewrite Hs.
  - rewrite Hp. cbn [mbind result_bind].
    destruct errorEnvelope; try (by rewrite He). done.
Qed.

(** X20. The processor hands on what the parsers return without looking
    whether it is nil: for any adapter whose validation passes, when
    invocation reports a failure and [ParseErrorResponse] returns neither an
    error value nor an error, or invocation reports success and
    [ParseSuccessResponse] returns neither, [ProcessPayment] returns neither
    a response nor an error. *)
Theorem nil_results_are_handed_on pr env request prov envelope errorEnvelope :
  processor.getProvider pr (Mode request) = (Some prov, None) ->
  ValidateRequest prov request = Ok None ->
  providers.ProcessPayment prov env request = Ok (envelope, errorEnvelope) ->
  (errorEnvelope <> VNil /\ ParseErrorResponse prov errorEnvelope = Ok (None, None))
  \/ (errorEnvelope = VNil /\ ParseSuccessResponse prov envelope = Ok (None, None)) ->
  processor.ProcessPayment pr env request = Ok (None, None).
Proof.
  intros Hget Hv Hp Hcase. unfold processor.ProcessPayment.
  rewrite Hget, Hv. cbn [mbind result_bind]. rewrite Hp. cbn [mbind result_bind].
  destruct Hcase as [[Hne He]|[-> Hs]].
  - destruct errorEnvelope; try (by rewrite He). done.
  - by rewrite Hs.
Qed.

End PipelineMore.

(** ** Concrete runs of the further properties *)

Section RunsMore.

(** mastercard then visa, or visa then mastercard: the same registry. *)
Lemma registration_order_main :
  NoDup (GetName <$> [run.mastercard; run.visa])
  /\ processor.NewPaymentProcessor [run.mastercard; run.visa]
     = processor.NewPaymentProcessor [run.visa; run.mastercard].
Proof.
  assert (Hnd : NoDup (GetName <$> [run.mastercard; run.visa])).
  { apply NoDup_cons. split; [|apply NoDup_singleton].
    intros Hin%list_elem_of_singleton. discriminate. }
  split; [exact Hnd|].
  apply (registration_order_irrelevant_for_distinct_names
           [run.mastercard; run.visa] [run.visa; run.mastercard] Hnd).
  apply Permutation_swap.
Defined.

(** A NaN amount with the other fields of [main.go]'s request is accepted. *)
Lemma nan_amount_accepted_sample :
  mastercard.ValidateRequest mastercard.GetNewMasterCardPaymentProvider
    (spec.sampleRequest "mastercard" nan) = None
  /\ visa.ValidateRequest visa.GetNewVisaPaymentProvider
       (spec.sampleRequest "mastercard" nan) = None.
Proof.
  destruct (nan_amount_passes_amount_rules
              mastercard.GetNewMasterCardPaymentProvider
              visa.GetNewVisaPaymentProvider
              (spec.sampleRequest "mastercard" nan) eq_refl)
    as (_ & _ & Hsame & Haccept).
  assert (Hm : mastercard.ValidateRequest mastercard.GetNewMasterCardPaymentProvider
                 (spec.sampleRequest "mastercard" nan) = None).
  { apply Haccept; cbn; (discriminate || lia). }
  split; [exact Hm|]. by rewrite Hsame.
Defined.

(** A card number of sixteen letters is validated like one of sixteen digits. *)
Lemma validate_letters_like_digits :
  let letters :=
    {| Mode := "visa"; Amount := 100%float; Currency := "???";
       CardNumber := "abcdefghijklmnop"; ExpiryMonth := "99"; ExpiryYear := "x";
       CVV := "abc" |} in
  visa.ValidateRequest visa.GetNewVisaPaymentProvider letters
  = visa.ValidateRequest visa.GetNewVisaPaymentProvider
      (spec.sampleRequest "visa" 100%float).
Proof.
  intros letters.
  apply (validate_looks_at_lengths_only mastercard.GetNewMasterCardPaymentProvider
           visa.GetNewVisaPaymentProvider letters
           (spec.sampleRequest "visa" 100%float));
    try reflexivity; split; discriminate.
Defined.

(** The envelope of [TestMastercardProvider_ParseSuccessResponse], at a
    fixed time: the amount text 24.44 is read as the number 24.44. *)
Lemma mastercard_parse_success_test :
  @mastercard.ParseSuccessResponse decimal.lib mastercard.GetNewMasterCardPaymentProvider
    (VMap [ ("transaction_id", VString "TX1234567890");
            ("status", VString "APPROVED");
            ("amount", VString "24.44");
            ("currency", VString "USD");
            ("timestamp", VTime (time_Unix 1700000000 0)) ])
  = Ok (Some {| Response.Success := true;
                Response.TransactionID := "TX1234567890";
                Response.Status := "APPROVED";
                Response.Amount := 24.44%float;
                Response.Currency := "USD";
                Response.Date := Some (time_Unix 1700000000 0) |}, None).
Proof.
  apply (@mastercard_parse_success_reads decimal.lib
           mastercard.GetNewMasterCardPaymentProvider
           [ ("transaction_id", VString "TX1234567890");
             ("status", VString "APPROVED");
             ("amount", VString "24.44");
             ("currency", VString "USD");
             ("timestamp", VTime (time_Unix 1700000000 0)) ]
           "24.44" 24.44%float "TX1234567890" "APPROVED" "USD");
    reflexivity.
Defined.

(** The envelope of [TestMastercardProvider_ParseErrorResponse]. *)
Lemma mastercard_error_mapping_test :
  @mastercard.ParseErrorResponse decimal.lib mastercard.GetNewMasterCardPaymentProvider
    (VMap [ ("error_code", VString "MC0001"); ("message", VString "Insufficient funds") ])
  = (Some {| Error.Success := false;
             Error.ErrorCode := "MC0001";
             Error.ErrorMessage := "Insufficient funds" |}, None).
Proof.
  apply (@mastercard_error_mapping decimal.lib
           mastercard.GetNewMasterCardPaymentProvider "MC0001" "Insufficient funds");
    reflexivity.
Defined.


(** A numeric error code is refused by mastercard. *)
Lemma parse_error_rejects_numeric_code :
  exists e,
    @mastercard.ParseErrorResponse decimal.lib mastercard.GetNewMasterCardPaymentProvider
      (VMap [ ("error_code", VInt 1); ("message", VString "Insufficient funds") ])
    = (None, Some e).
Proof.
  apply (proj1 (@parse_error_rejects_wrong_types decimal.lib
                  mastercard.GetNewMasterCardPaymentProvider
                  visa.GetNewVisaPaymentProvider
                  [ ("error_code", VInt 1); ("message", VString "Insufficient funds") ]
                  "error_code" (VInt 1) (json.JInt 1)
                  (or_introl eq_refl) eq_refl)).
  split; [by left|reflexivity].
Defined.

(** A declined payment at the processor of [main.go]. *)
Lemma reference_errors_declined_main :
  let env := {| rand_Float64 := 0.05%float; time_Now := time_Unix 1700000000 0 |} in
  exists err,
    processor.ProcessPayment run.main env (spec.sampleRequest "visa" 100%float)
    = Ok (None, Some err)
    /\ Error.ErrorCode err <> "PROCESSING_ERROR".
Proof.
  intros env. eexists. split; [vm_compute; reflexivity|].
  refine (proj1 (proj2 (proj2
    (@reference_errors_by_stage decimal.lib run.main env
       (spec.sampleRequest "visa" 100%float) run.visa None _
       main_resolves_visa _ _)))).
  - right. by eexists.
  - vm_compute. reflexivity.
Defined.

(** 24.44 USD through mastercard at the processor of [main.go]. *)
Lemma mastercard_payment_approved_main :
  processor.ProcessPayment run.main run.env (spec.sampleRequest "mastercard" 24.44%float)
  = Ok (Some {| Response.Success := true;
                Response.TransactionID := "TX1234567890";
                Response.Status := "APPROVED";
                Response.Amount := 24.44%float;
                Response.Currency := "USD";
                Response.Date := Some (time_Now run.env) |}, None).
Proof.
  apply (@mastercard_payment_approved decimal.lib run.main run.env
           (spec.sampleRequest "mastercard" 24.44%float)
           mastercard.GetNewMasterCardPaymentProvider 24.44%float
           main_resolves_mastercard); reflexivity.
Defined.

(** The payment of [main.go]. *)
Lemma visa_payment_succeeds_main :
  processor.ProcessPayment run.main run.env (spec.sampleRequest "visa" 100%float)
  = Ok (Some {| Response.Success := true;
                Response.TransactionID := "PPAAYY--778899--XXYYZZ";
                Response.Status := "SUCCESS";
                Response.Amount := 100%float;
                Response.Currency := "USD";
                Response.Date := Some (time_Unix 1677587921 0) |}, None).
Proof.
  apply (@visa_payment_succeeds decimal.lib run.main run.env
           (spec.sampleRequest "visa" 100%float) visa.GetNewVisaPaymentProvider
           main_resolves_visa); reflexivity.
Defined.

(** The payment of [main.go] at the draw 0.05. *)
Lemma payment_declined_main :
  let env := {| rand_Float64 := 0.05%float; time_Now := time_Unix 1700000000 0 |} in
  processor.ProcessPayment run.main env (spec.sampleRequest "visa" 100%float)
  = Ok (None, Some {| Error.Success := false; Error.ErrorCode := "EE000011";
                      Error.ErrorMessage :=
                        "ErrorType:PAYMENT_FAILED :: ErrorReason: Card declined" |}).
Proof.
  intros env.
  apply (proj2 (@payment_declined_below_tenth decimal.lib run.main env
                  (spec.sampleRequest "visa" 100%float) run.visa
                  main_resolves_visa eq_refl eq_refl)).
  by eexists.
Defined.

Lemma resolves_replay :
  processor.getProvider (processor.NewPaymentProcessor [double.replay]) "replay"
  = (Some double.replay, None).
Proof.
  unfold processor.getProvider.
  change (processor.providers (processor.NewPaymentProcessor [double.replay]) !! "replay")
    with (processor.providers
            (processor.NewPaymentProcessor ([] ++ double.replay :: []))
          !! GetName double.replay).
  rewrite registry_last; [reflexivity|].
  intros q Hq. by apply elem_of_nil in Hq.
Defined.

Lemma resolves_silent :
  processor.getProvider (processor.NewPaymentProcessor [double.silent]) "silent"
  = (Some double.silent, None).
Proof.
  unfold processor.getProvider.
  change (processor.providers (processor.NewPaymentProcessor [double.silent]) !! "silent")
    with (processor.providers
            (processor.NewPaymentProcessor ([] ++ double.silent :: []))
          !! GetName double.silent).
  rewrite registry_last; [reflexivity|].
  intros q Hq. by apply elem_of_nil in Hq.
Defined.

(** mastercard's parser behind an adapter that hands it an envelope
    without transaction id: the panic leaves [ProcessPayment]. *)
Lemma adapter_panic_replay :
  processor.ProcessPayment (processor.NewPaymentProcessor [double.replay]) run.env
    (spec.sampleRequest "replay" 100%float)
  = Panic "interface conversion: interface {} is nil, not string".
Proof.
  apply (@adapter_panic_reaches_caller
           (processor.NewPaymentProcessor [double.replay]) run.env
           (spec.sampleRequest "replay" 100%float) double.replay _ resolves_replay).
  right. split; [reflexivity|]. right; left.
  eexists. split; reflexivity.
Defined.

(** An adapter that maps its failure to nothing: neither result. *)
Lemma nil_results_silent :
  processor.ProcessPayment (processor.NewPaymentProcessor [double.silent]) run.env
    (spec.sampleRequest "silent" 100%float)
  = Ok (None, None).
Proof.
  apply (@nil_results_are_handed_on
           (processor.NewPaymentProcessor [double.silent]) run.env
           (spec.sampleRequest "silent" 100%float) double.silent
           VNil (VString "failed") resolves_silent eq_refl eq_refl).
  left. split; [discriminate|reflexivity].
Defined.

End RunsMore.
